(** * User manager of mxcubeweb: session registry, admission and operator arbitration

    Shallow embedding of [mxcubeweb/core/components/user/usermanager.py]
    ([BaseUserManager] and [UserManager]).

    - The datastore ([User.query.all()]) is a list of user records in
      insertion order.  A Python reference to a user object is the position of
      the record in that list, so that a mutation through one reference is
      seen through every other one.
    - [current_user] is an optional reference; [None] is flask's anonymous user.
    - Methods are computations in a state and exception monad over [World].
      A raised exception keeps the mutations done before it, as in Python.
    - The role table holds the two roles that [db_create_user] creates.  A
      role name outside it makes the commit of that method raise
      [FlushError], and what the method was about to store is dropped.
    - Python lists the elements of a set in an order that depends on the
      hashing of the running process; [set_order] of [Env] gives it.
    - One request is handled at one instant [now]: every call of
      [datetime.datetime.now()] made while serving a request reads that value.
    - Collaborators that are not part of this file (the LIMS component, the
      [User] model class, the configuration) are fields of [Env]. *)

From Stdlib Require Import ZArith Lia Ascii.
From stdpp Require Import base list strings.

(** ** Data model *)

(** Columns of the [User] model that the manager reads or writes.  [roles]
    holds role names; [last_request_timestamp] is [None] until the first
    tracked request. *)
Record User := mkUser {
  username : string;
  nickname : string;
  session_id : string;
  socketio_session_id : option string;
  selected_proposal : option string;
  limsdata : string;
  roles : list string;
  active : bool;
  in_control : bool;
  last_request_timestamp : option Z
}.

Definition set_in_control (b : bool) (u : User) : User :=
  mkUser (username u) (nickname u) (session_id u) (socketio_session_id u)
    (selected_proposal u) (limsdata u) (roles u) (active u) b
    (last_request_timestamp u).

Definition set_active (b : bool) (u : User) : User :=
  mkUser (username u) (nickname u) (session_id u) (socketio_session_id u)
    (selected_proposal u) (limsdata u) (roles u) b (in_control u)
    (last_request_timestamp u).

Definition set_nickname (n : string) (u : User) : User :=
  mkUser (username u) n (session_id u) (socketio_session_id u)
    (selected_proposal u) (limsdata u) (roles u) (active u) (in_control u)
    (last_request_timestamp u).

Definition set_limsdata (d : string) (u : User) : User :=
  mkUser (username u) (nickname u) (session_id u) (socketio_session_id u)
    (selected_proposal u) d (roles u) (active u) (in_control u)
    (last_request_timestamp u).

Definition set_roles (r : list string) (u : User) : User :=
  mkUser (username u) (nickname u) (session_id u) (socketio_session_id u)
    (selected_proposal u) (limsdata u) r (active u) (in_control u)
    (last_request_timestamp u).

Definition set_last_request_timestamp (t : option Z) (u : User) : User :=
  mkUser (username u) (nickname u) (session_id u) (socketio_session_id u)
    (selected_proposal u) (limsdata u) (roles u) (active u) (in_control u) t.

(** Membership test of Python's [x in list_of_str]. *)
Definition str_in (x : string) (l : list string) : bool :=
  existsb (String.eqb x) l.

(** [User.isstaff]: the user has the role "staff". *)
Definition isstaff (u : User) : bool := str_in "staff" (roles u).

(** Messages sent through [self.app.server.emit]; [room] is the socket.io
    session the message is addressed to.  [ResourceReset] stands for the
    queue and sample clean-up calls of an operator's signout. *)
Inductive Event :=
| UserChanged (room : option string)
| ObserversChanged
| ForceSignout (room : option string)
| ResourceReset.

(** The mutable world: the datastore, the proposals handed to
    [lims.select_proposal] (oldest first) and the messages emitted. *)
Record World := mkWorld {
  users : list User;
  selected : list string;
  events : list Event
}.

Definition with_users (us : list User) (w : World) : World :=
  mkWorld us (selected w) (events w).

(** Configuration and collaborators. [LoginRes] is the dictionary returned by
    the LIMS login; [is_authenticated] is the property of the [User] model
    class; [get_proposal] is [lims.get_proposal]; [set_order a b] tells
    whether [a] comes before [b] when Python lists a set that holds both,
    which depends on the hashing of strings in the running process. *)
Record Env := mkEnv {
  LoginRes : Type;
  loginType : string;
  in_house_users : list (string * string);
  inhouse_is_staff : bool;
  config_users : list (string * string);
  ALLOW_REMOTE : bool;
  permanent_session_lifetime : Z;
  is_authenticated : User -> bool;
  lims_login : string -> string -> LoginRes;
  lims_valid_login : LoginRes -> bool;
  lims_existing_session : LoginRes -> bool;
  create_lims_session : LoginRes -> LoginRes;
  get_proposal : User -> string;
  json_dumps : LoginRes -> string;
  set_order : string -> string -> bool
}.

(** What a request brings: the user loaded by flask-login, whether it comes
    from the local host, the time, the "sid" of the flask session if it has
    one, and the values the calls of [uuid.uuid4()] return. *)
Record Request := mkRequest {
  current_user : option nat;
  local_host : bool;
  now : Z;
  session_sid : option string;
  uuid_sid : string;
  uuid_user : string
}.

Definition as_user (i : nat) (rq : Request) : Request :=
  mkRequest (Some i) (local_host rq) (now rq) (session_sid rq)
    (uuid_sid rq) (uuid_user rq).

(** ** Exceptions and the monad *)

Inductive exn :=
| Exception (msg : string)
| AttributeError (msg : string)
| FlushError (msg : string).

Inductive result (A : Type) :=
| Ok (a : A)
| Raise (e : exn).
Arguments Ok {A} a.
Arguments Raise {A} e.

Definition M (A : Type) : Type := World -> World * result A.

#[global] Instance M_ret : MRet M := fun A a w => (w, Ok a).

#[global] Instance M_bind : MBind M := fun A B f m w =>
  match m w with
  | (w', Ok a) => f a w'
  | (w', Raise e) => (w', Raise e)
  end.

Definition raise {A} (e : exn) : M A := fun w => (w, Raise e).

Definition get_world : M World := fun w => (w, Ok w).

Definition modify_users (f : list User -> list User) : M unit :=
  fun w => (with_users (f (users w)) w, Ok tt).

Definition emit (e : Event) : M unit :=
  fun w => (mkWorld (users w) (selected w) (events w ++ [e]), Ok tt).

(** [self.app.lims.select_proposal(p)] *)
Definition select_proposal (p : string) : M unit :=
  fun w => (mkWorld (users w) (selected w ++ [p]) (events w), Ok tt).

(** A [for] loop whose body returns nothing. *)
Fixpoint for_each {X} (body : X -> M unit) (xs : list X) : M unit :=
  match xs with
  | [] => mret tt
  | x :: xs' => body x ;; for_each body xs'
  end.

(** [User.query.all()]: references to all stored users, in order. *)
Definition query_all : M (list nat) :=
  w ← get_world; mret (seq 0 (length (users w))).

(** Run [k] on the object behind reference [i]; a loop never holds a
    reference to a deleted object, so the other case does nothing. *)
Definition with_user (i : nat) (k : User -> M unit) : M unit :=
  w ← get_world;
  match users w !! i with
  | Some u => k u
  | None => mret tt
  end.

(** The object behind [current_user], [None] for the anonymous user. *)
Definition cur_user (rq : Request) (w : World) : option User :=
  match current_user rq with
  | Some i => users w !! i
  | None => None
  end.

(** [current_user.is_anonymous] *)
Definition is_anonymous (rq : Request) : M bool :=
  w ← get_world;
  mret (match cur_user rq w with Some _ => false | None => true end).

(** ** Strings *)

(** [str.lower()] on ASCII letters. *)
Definition lower_ascii (c : ascii) : ascii :=
  let n := Ascii.nat_of_ascii c in
  if (65 <=? n) && (n <=? 90) then Ascii.ascii_of_nat (n + 32) else c.

Fixpoint lower (s : string) : string :=
  match s with
  | EmptyString => EmptyString
  | String c s' => String (lower_ascii c) (lower s')
  end.

(** [HWR.beamline.lims.loginType.lower() == "user"] *)
Definition user_mode (env : Env) : bool :=
  String.eqb (lower (loginType env)) "user".

(** [p.split("-")[0]]: the characters before the first hyphen. *)
Fixpoint split_hyphen_0 (p : string) : string :=
  match p with
  | EmptyString => EmptyString
  | String c p' =>
      if Ascii.eqb c "-"%char then EmptyString else String c (split_hyphen_0 p')
  end.

(** Truth value of a Python list: false when empty. *)
Definition truthy {A} (l : list A) : bool :=
  match l with
  | [] => false
  | _ :: _ => true
  end.

(** [str(b)] for a Python boolean. *)
Definition py_bool (b : bool) : string := if b then "True" else "False".

(** [str(info)] for the dictionary built by [_login]. *)
Definition str_info (valid local existing inhouse : bool) : string :=
  "{'valid': " +:+ py_bool valid +:+ ", 'local': " +:+ py_bool local
  +:+ ", 'existing_session': " +:+ py_bool existing
  +:+ ", 'inhouse': " +:+ py_bool inhouse +:+ "}".

(** ** The datastore *)

(** [user_datastore.find_user(username=name)]: the first user of that name,
    searched from position [k]. *)
Fixpoint find_user_from (name : string) (k : nat) (us : list User) : option nat :=
  match us with
  | [] => None
  | _u :: us' =>
      if String.eqb (username _u) name then Some k
      else find_user_from name (S k) us'
  end.

Definition find_user (name : string) : M (option nat) :=
  w ← get_world; mret (find_user_from name 0 (users w)).

(** [user_datastore.deactivate_user(user)]; the anonymous user has no
    attribute [active]. *)
Definition deactivate_user (i : nat) : M bool :=
  w ← get_world;
  match users w !! i with
  | Some u =>
      if active u
      then modify_users (<[i := set_active false u]>) ;; mret true
      else mret false
  | None => raise (AttributeError "'AnonymousUser' object has no attribute 'active'")
  end.

(** [user_datastore.activate_user(user)] *)
Definition activate_user (i : nat) : M bool :=
  w ← get_world;
  match users w !! i with
  | Some u =>
      if active u
      then mret false
      else modify_users (<[i := set_active true u]>) ;; mret true
  | None => raise (AttributeError "'NoneType' object has no attribute 'active'")
  end.

(** [user_datastore.delete_user(user)] followed by [commit()] *)
Definition delete_user (i : nat) : M unit := modify_users (delete i).

(** [user_datastore.append_roles(user, roles)]: add the roles the user does
    not have yet. *)
Definition append_roles (rs : list string) (u : User) : User :=
  set_roles
    (fold_left (fun acc r => if str_in r acc then acc else acc ++ [r]) rs (roles u))
    u.

(** ** BaseUserManager *)

(** The test of [update_active_users] on one user at time [t]. *)
Definition timed_out (env : Env) (t : Z) (u : User) : bool :=
  active u &&
  match last_request_timestamp u with
  | Some ts => (permanent_session_lifetime env <? t - ts)%Z
  | None => false
  end.

Definition update_active_users (env : Env) (rq : Request) : M unit :=
  us ← query_all;
  for_each (fun i => with_user i (fun _u =>
    if timed_out env (now rq) _u
    then deactivate_user i ;; emit (UserChanged (socketio_session_id _u))
    else mret tt)) us ;;
  emit ObserversChanged.

Definition active_logged_in_users (env : Env) (rq : Request)
    (exclude_inhouse : bool) : M (list string) :=
  update_active_users env rq ;;
  w ← get_world;
  mret (username <$>
        List.filter (fun _u =>
          if exclude_inhouse then active _u && negb (isstaff _u) else active _u)
          (users w)).

(** [get_user]: the loop has no [break], the last user of that name wins. *)
Fixpoint get_user_from (name : string) (k : nat) (us : list User)
    (user : option nat) : option nat :=
  match us with
  | [] => user
  | _u :: us' =>
      get_user_from name (S k) us'
        (if String.eqb (username _u) name then Some k else user)
  end.

Definition get_user (name : string) : M (option nat) :=
  w ← get_world; mret (get_user_from name 0 (users w) None).

(** [db_set_in_control(user, control)]; [i] is the reference passed as
    [user].  No method writes [username], so [user.username] is read once. *)
Definition db_set_in_control (i : nat) (control : bool) : M unit :=
  w ← get_world;
  match users w !! i with
  | None => raise (AttributeError "'AnonymousUser' object has no attribute 'username'")
  | Some user =>
      if control then
        us ← query_all;
        for_each (fun j => with_user j (fun _u =>
          modify_users
            (<[j := set_in_control (String.eqb (username _u) (username user)) _u]>)))
          us
      else
        r ← find_user (username user);
        match r with
        | Some k =>
            with_user k (fun _u => modify_users (<[k := set_in_control false _u]>))
        | None => raise (AttributeError "'NoneType' object has no attribute 'in_control'")
        end
  end.

(** [current_user.nickname = n]; on the anonymous user the assignment does
    not reach the datastore. *)
Definition set_current_nickname (rq : Request) (n : string) : M unit :=
  match current_user rq with
  | Some i => with_user i (fun cu => modify_users (<[i := set_nickname n cu]>))
  | None => mret tt
  end.

(** First loop of [update_operator]: returns [active_in_control]. *)
Fixpoint demote_loop (env : Env) (us : list nat) (active_in_control : bool) : M bool :=
  match us with
  | [] => mret active_in_control
  | i :: us' =>
      w ← get_world;
      match users w !! i with
      | Some _u =>
          if is_authenticated env _u && in_control _u
          then demote_loop env us' true
          else db_set_in_control i false ;; demote_loop env us' active_in_control
      | None => demote_loop env us' active_in_control
      end
  end.

(** Body of the last loop of [update_operator]; a [selected_proposal] that is
    [None] or empty is false in Python. *)
Definition select_for (env : Env) (_u : User) : M unit :=
  if is_authenticated env _u && in_control _u then
    if negb (user_mode env) then select_proposal (get_proposal env _u)
    else
      match selected_proposal _u with
      | Some p => if String.eqb p "" then mret tt else select_proposal p
      | None => mret tt
      end
  else mret tt.

(** [update_operator(new_login)].  Both callers run it with a logged-in
    [current_user]; for the anonymous user the promotion raises on
    [current_user.username]. *)
Definition update_operator (env : Env) (rq : Request) (new_login : bool) : M unit :=
  us ← query_all;
  active_in_control ← demote_loop env us false;
  (if new_login then set_current_nickname rq "" else mret tt) ;;
  (if negb active_in_control then
     w ← get_world;
     match current_user rq, cur_user rq w with
     | Some i, Some cu =>
         set_current_nickname rq
           (if negb (user_mode env) then get_proposal env cu else username cu) ;;
         db_set_in_control i true
     | _, _ => raise (AttributeError "'AnonymousUser' object has no attribute 'username'")
     end
   else mret tt) ;;
  us' ← query_all;
  for_each (fun i => with_user i (select_for env)) us'.

Definition is_inhouse_user (env : Env) (user_id : string) : bool :=
  str_in user_id ((fun '(code, number) => code +:+ number) <$> in_house_users env).

(** [_get_configured_roles]: [list(roles)] of a set that holds "staff" for
    an in-house user when in-house users are staff, and the role of the first
    configured user of that name.  When the set holds two roles, their order
    in the list is the one [set_order] gives. *)
Definition _get_configured_roles (env : Env) (user : string) : list string :=
  let staff := inhouse_is_staff env && is_inhouse_user env user in
  match List.find (fun '(name, _) => String.eqb name user) (config_users env) with
  | Some (_, role) =>
      if staff then
        if String.eqb role "staff" then ["staff"]
        else if set_order env "staff" role then ["staff"; role]
        else [role; "staff"]
      else [role]
  | None => if staff then ["staff"] else []
  end.

(** The roles of the role table: [db_create_user] makes sure that "staff"
    and "incontrol" exist, and nothing in the manager creates another one. *)
Definition role_exists (name : string) : bool :=
  String.eqb name "staff" || String.eqb name "incontrol".

Definition msg_flush : string :=
  "Can't flush None value found in collection User.roles".

(** Every role configured for [user] is in the role table. *)
Definition roles_storable (env : Env) (user : string) : bool :=
  forallb role_exists (_get_configured_roles env user).

(** [db_create_user(user, password, lims_data)] with [sid] the value of
    [flask.session["sid"]].  A created user is active, not in control.
    [create_user] and [append_roles] look every role name up in the role
    table; a name that is not there gives [None] in [user.roles], on which
    the [commit()] that ends the method raises [FlushError]: the session is
    rolled back and nothing of the call is stored; what the request changed
    before the call stays as it is, as with every exception here. *)
Definition db_create_user (env : Env) (rq : Request) (user password : string)
    (lims_data : LoginRes env) (sid : string) : M (option nat) :=
  let uname := if user_mode env then user else user +:+ "-" +:+ uuid_user rq in
  _u ← find_user uname;
  if roles_storable env user then
    match _u with
    | None =>
        modify_users (fun us => us ++
          [mkUser uname user sid None
             (if negb (user_mode env) then Some user else None)
             (json_dumps env lims_data) (_get_configured_roles env user)
             true false None])
    | Some k =>
        with_user k (fun u => modify_users
          (<[k := append_roles (_get_configured_roles env user)
                    (set_limsdata (json_dumps env lims_data) u)]>))
    end ;;
    find_user uname
  else raise (FlushError msg_flush).

(** [login], over the [_login] of the concrete manager.  The calls to the
    sample changer do not touch the world modelled here. *)
Definition BaseUserManager_login (env : Env)
    (_login : Request -> string -> string -> M (LoginRes env))
    (rq : Request) (login_id password : string) : M unit :=
  login_res ← _login rq login_id password;
  let sid := default (uuid_sid rq) (session_sid rq) in
  update_active_users env rq ;;
  user ← db_create_user env rq login_id password login_res sid;
  match user with
  | Some i =>
      activate_user i ;;
      update_operator env (as_user i rq) true
  | None => raise (AttributeError "'NoneType' object has no attribute 'active'")
  end.

(** [is_operator]: [getattr(current_user, "in_control", False)] *)
Definition is_operator (rq : Request) : M bool :=
  w ← get_world;
  mret (match cur_user rq w with Some cu => in_control cu | None => false end).

Definition signout (rq : Request) : M unit :=
  operator ← is_operator rq;
  (if (operator : bool) then
     emit ResourceReset ;;
     match current_user rq return M unit with
     | Some i => db_set_in_control i false
     | None => mret tt
     end
   else mret tt) ;;
  match current_user rq return M unit with
  | Some i => deactivate_user i ;; mret tt
  | None => raise (AttributeError "'AnonymousUser' object has no attribute 'active'")
  end ;;
  emit ObserversChanged.

Definition force_signout_user (rq : Request) (name : string) : M unit :=
  user ← get_user name;
  match user with
  | None => raise (AttributeError "'NoneType' object has no attribute 'in_control'")
  | Some i =>
      with_user i (fun u =>
        anon ← is_anonymous rq;
        if negb (in_control u) || anon
        then delete_user i ;; emit (ForceSignout (socketio_session_id u))
        else mret tt)
  end.

(** ** UserManager *)

Definition msg_already_logged_in : string := "You are already logged in".

Definition msg_logged_in_elsewhere : string :=
  "Login rejected, you are already logged in somewhere else"
  +:+ String "010"%char "and Another user is already logged in".

Definition msg_inhouse_local : string := "In-house only allowed from localhost".

Definition msg_another_user : string := "Another user is already logged in".

Definition msg_remote_disabled : string := "Remote access disabled".

(** The first rule of [_login], on the names returned by
    [active_logged_in_users()]. *)
Definition self_conflict_rule (rq : Request) (login_id : string)
    (active_users : list string) : M unit :=
  if str_in login_id active_users then
    w ← get_world;
    match cur_user rq w with
    | None => force_signout_user rq login_id
    | Some cu =>
        if String.eqb (username cu) login_id
        then raise (Exception msg_already_logged_in)
        else raise (Exception msg_logged_in_elsewhere)
    end
  else mret tt.

(** The rules of [_login] that follow the first one. *)
Definition admission_rules (env : Env) (rq : Request) (login_id : string)
    (login_res : LoginRes env) (active_users : list string) : M (LoginRes env) :=
  let inhouse := is_inhouse_user env login_id in
  (if inhouse && negb (inhouse && local_host rq)
   then raise (Exception msg_inhouse_local) else mret tt) ;;
  non_inhouse_active_users ← active_logged_in_users env rq true;
  (if negb inhouse
      && truthy non_inhouse_active_users
      && negb (str_in login_id (split_hyphen_0 <$> non_inhouse_active_users))
      && negb (user_mode env)
   then raise (Exception msg_another_user) else mret tt) ;;
  w ← get_world;
  match cur_user rq w with
  | Some cu =>
      if truthy active_users
         && negb (String.eqb (username cu) login_id)
         && user_mode env
      then raise (Exception msg_another_user) else mret tt
  | None => mret tt
  end ;;
  (if negb (ALLOW_REMOTE env) && negb (local_host rq)
   then raise (Exception msg_remote_disabled) else mret tt) ;;
  if lims_valid_login env login_res then
    mret (if lims_existing_session env login_res
          then login_res else create_lims_session env login_res)
  else
    raise (Exception (str_info (lims_valid_login env login_res) (local_host rq)
                        (lims_existing_session env login_res) inhouse)).

(** [UserManager._login] *)
Definition _login (env : Env) (rq : Request) (login_id password : string)
    : M (LoginRes env) :=
  let login_res := lims_login env login_id password in
  active_users ← active_logged_in_users env rq false;
  self_conflict_rule rq login_id active_users ;;
  admission_rules env rq login_id login_res active_users.

Definition login (env : Env) : Request -> string -> string -> M unit :=
  BaseUserManager_login env (_login env).

(** Modelled from the spec: the request tracking that writes
    [last_request_timestamp] is not in this file; section 4.1 gives
    "touch(sessionId): updates lastActivity to now; no-op if session absent". *)
Definition touch (rq : Request) : M unit :=
  match current_user rq with
  | Some i =>
      with_user i (fun u =>
        modify_users (<[i := set_last_request_timestamp (Some (now rq)) u]>))
  | None => mret tt
  end.

(** ** Sequences of operations *)

Inductive Op :=
| OpLogin (rq : Request) (login_id password : string)
| OpSignout (rq : Request)
| OpForceSignout (rq : Request) (name : string)
| OpSweep (rq : Request)
| OpTouch (rq : Request).

(** The world after an operation, whether it returned or raised. *)
Definition step (env : Env) (w : World) (o : Op) : World :=
  match o with
  | OpLogin rq login_id password => fst (login env rq login_id password w)
  | OpSignout rq => fst (signout rq w)
  | OpForceSignout rq name => fst (force_signout_user rq name w)
  | OpSweep rq => fst (update_active_users env rq w)
  | OpTouch rq => fst (touch rq w)
  end.

Definition run (env : Env) (ops : list Op) (w : World) : World :=
  fold_left (step env) ops w.

Definition empty_world : World := mkWorld [] [] [].

(** The sessions that are active, authenticated and in control. *)
Definition controlling (env : Env) (us : list User) : list User :=
  List.filter (fun u => active u && is_authenticated env u && in_control u) us.

(** ** A concrete instance

    flask-login derives [is_authenticated] from [is_active], which
    flask-security reads from the column [active]; the LIMS accepts the
    password "ok", reports an existing session, and gives as proposal of a
    user the part of its name before the first hyphen; in-house users get
    the role "staff", the session lifetime is 100, no user has a configured
    role and sets list "staff" first. *)
Definition env_of (mode : string) (inhouse : list (string * string))
    (allow_remote : bool) : Env :=
  mkEnv bool mode inhouse true [] allow_remote 100 active
    (fun _ password => String.eqb password "ok")
    (fun r => r) (fun _ => true) (fun r => r)
    (fun u => split_hyphen_0 (username u))
    (fun _ => "{}")
    (fun a _ => String.eqb a "staff").

Definition env_proposal : Env := env_of "proposal" [("fx", "1")] true.

Definition env_user : Env := env_of "User" [("fx", "1")] true.


Definition anon_request (local : bool) (t : Z) (uuid : string) : Request :=
  mkRequest None local t None "sid" uuid.

Definition user_request (i : nat) (local : bool) (t : Z) (uuid : string) : Request :=
  mkRequest (Some i) local t (Some "sid") "sid" uuid.

(** ** Closed forms of the loops *)

(** What the sweep does to one user at time [t]. *)
Definition expire (env : Env) (t : Z) (u : User) : User :=
  if timed_out env t u then set_active false u else u.

Definition sweep (env : Env) (t : Z) (us : list User) : list User :=
  expire env t <$> us.

Definition sweep_events (env : Env) (t : Z) (us : list User) : list Event :=
  flat_map (fun u =>
    if timed_out env t u then [UserChanged (socketio_session_id u)] else []) us.

(** The world after [update_active_users] at time [t]. *)
Definition swept (env : Env) (t : Z) (w : World) : World :=
  mkWorld (sweep env t (users w)) (selected w)
    (events w ++ sweep_events env t (users w) ++ [ObserversChanged]).

(** The names [active_logged_in_users] reads off a datastore. *)
Definition active_names (exclude_inhouse : bool) (us : list User) : list string :=
  username <$>
    List.filter (fun _u =>
      if exclude_inhouse then active _u && negb (isstaff _u) else active _u) us.

(** The world after the forced eviction of the user at position [i]. *)
Definition evicted (i : nat) (u : User) (w : World) : World :=
  mkWorld (delete i (users w)) (selected w)
    (events w ++ [ForceSignout (socketio_session_id u)]).

(** The test of [update_operator] for "this user is the operator". *)
Definition is_controlling (env : Env) (u : User) : bool :=
  is_authenticated env u && in_control u.

(** What the first loop of [update_operator] does to one user when names are
    unique. *)
Definition demote (env : Env) (u : User) : User :=
  if is_controlling env u then u else set_in_control false u.

(** What [db_set_in_control(user, True)] does to one user. *)
Definition grant (name : string) (u : User) : User :=
  set_in_control (String.eqb (username u) name) u.

(** The proposals the last loop of [update_operator] selects for one user. *)
Definition proposals_of (env : Env) (u : User) : list string :=
  if is_controlling env u then
    if negb (user_mode env) then [get_proposal env u]
    else
      match selected_proposal u with
      | Some p => if String.eqb p "" then [] else [p]
      | None => []
      end
  else [].

(** One user after the first loop of [update_operator]: unchanged or with
    [in_control] cleared. *)
Definition lowered (us us' : list User) : Prop :=
  Forall2 (fun u u' => u' = u \/ u' = set_in_control false u) us us'.

(** The datastore after [update_operator(new_login)] run by the user at
    position [i], from the datastore [us1] left by the first loop, where [cu1]
    is the current user and [flag] the value of [active_in_control]. *)
Definition after_update_operator (env : Env) (i : nat) (new_login flag : bool)
    (us1 : list User) (cu1 : User) : list User :=
  let cu2 := if new_login then set_nickname "" cu1 else cu1 in
  let us2 := <[i := cu2]> us1 in
  if flag then us2
  else
    grant (username cu2) <$>
      <[i := set_nickname
               (if negb (user_mode env) then get_proposal env cu2 else username cu2)
               cu2]> us2.

(** ** Well-formed datastores *)

(** Names are unique and at most one user has [in_control] set. *)
Definition registry_ok (us : list User) : Prop :=
  NoDup (username <$> us) /\ length (List.filter in_control us) <= 1.

(** [us'] has the users of [us], position by position, under the same names,
    and none of them gained control. *)
Definition no_grant (us us' : list User) : Prop :=
  Forall2 (fun u u' =>
    username u' = username u /\ (in_control u' = true -> in_control u = true))
    us us'.

(** The name [db_create_user] stores the session under. *)
Definition stored_name (env : Env) (rq : Request) (user : string) : string :=
  if user_mode env then user else user +:+ "-" +:+ uuid_user rq.

(** What [db_create_user] writes on a user that exists already. *)
Definition refreshed (env : Env) (user : string) (lims_data : LoginRes env)
    (u : User) : User :=
  append_roles (_get_configured_roles env user)
    (set_limsdata (json_dumps env lims_data) u).

(** ** Concrete datastores *)

Definition alice : User :=
  mkUser "alice" "alice" "sid-a" None None "{}" [] true true (Some 0%Z).

Definition world_alice : World := mkWorld [alice] [] [].

Definition msg_none_in_control : string :=
  "'NoneType' object has no attribute 'in_control'".

Definition bob : User :=
  mkUser "bob" "bob" "sid-b" None None "{}" [] true true (Some 0%Z).

(** [alice] after her session timed out: inactive, still in control. *)
Definition world_alice_away : World := mkWorld [set_active false alice] [] [].


(** A datastore that no sequence of operations produces: two operators. *)
Definition world_two_operators : World := mkWorld [alice; bob] [] [].

Definition session_12345 : User :=
  mkUser "12345-u1" "12345" "sid-1" None (Some "12345") "{}" [] true true None.

Definition session_67890 : User :=
  mkUser "67890-u2" "" "sid-2" None (Some "67890") "{}" [] true false None.

Definition world_12345 : World := mkWorld [session_12345] ["12345"] [].

(** Two active sessions of different proposals, neither of them staff. *)
Definition world_mixed : World :=
  mkWorld [session_12345; session_67890] ["12345"] [].



(** No character of [s] is a hyphen. *)
Fixpoint hyphen_free (s : string) : bool :=
  match s with
  | EmptyString => true
  | String c s' => negb (Ascii.eqb c "-"%char) && hyphen_free s'
  end.

(** ** Further methods of BaseUserManager *)

(** [get_operator]: the first user with [in_control] set, whether active or
    not. *)
Fixpoint get_operator_from (k : nat) (us : list User) : option nat :=
  match us with
  | [] => None
  | _u :: us' => if in_control _u then Some k else get_operator_from (S k) us'
  end.

Definition get_operator : M (option nat) :=
  w ← get_world; mret (get_operator_from 0 (users w)).

(** The loop of [set_operator(username)]; [user] is the last match so far. *)
Fixpoint set_operator_loop (name : string) (us : list nat) (user : option nat)
    : M (option nat) :=
  match us with
  | [] => mret user
  | i :: us' =>
      w ← get_world;
      match users w !! i with
      | Some _u =>
          if String.eqb (username _u) name
          then db_set_in_control i true ;; set_operator_loop name us' (Some i)
          else db_set_in_control i false ;; set_operator_loop name us' user
      | None => set_operator_loop name us' user
      end
  end.

Definition set_operator (name : string) : M (option nat) :=
  us ← query_all; set_operator_loop name us None.

(** A step that either raises or gives a value. *)
Definition lift {A} (x : exn + A) : M A :=
  match x with
  | inl e => raise e
  | inr a => mret a
  end.

(** [login_info].  [loads] stands for [convert_to_dict(json.loads(...))] on
    the [limsdata] of [current_user], which raises on a text it cannot
    read, and runs before [update_operator].  [build] stands for what follows
    [update_operator]: the proposal list taken out of the parsed data by key,
    which raises on an entry that lacks one, and the dictionary [res] made of
    it, of values of the beamline session and of [current_user.todict()]. *)
Definition login_info {J R : Type} (env : Env) (rq : Request)
    (loads : string -> exn + J) (build : World -> J -> User -> exn + R) : M R :=
  w ← get_world;
  match cur_user rq w with
  | Some cu =>
      info ← lift (loads (limsdata cu));
      update_operator env rq false ;;
      w' ← get_world;
      match cur_user rq w' with
      | Some cu' => lift (build w' info cu')
      | None => raise (Exception "Not logged in")
      end
  | None => raise (Exception "Not logged in")
  end.

(** An observer next to [alice]: active, not in control. *)
Definition carol : User :=
  mkUser "carol" "carol" "sid-c" None (Some "mx1") "{}" [] true false (Some 150%Z).

Definition world_alice_carol : World := mkWorld [alice; carol] [] [].

(** The user [db_create_user] adds when the name is free. *)
Definition created_user (env : Env) (rq : Request) (user : string)
    (lims_data : LoginRes env) (sid : string) : User :=
  mkUser (stored_name env rq user) user sid None
    (if negb (user_mode env) then Some user else None)
    (json_dumps env lims_data) (_get_configured_roles env user)
    true false None.

(** * Properties *)

(** ** The monad and the loops *)

Lemma bind_eq {A B} (m : M A) (f : A -> M B) (w : World) :
  (m ≫= f) w =
  match m w with
  | (w', Ok a) => f a w'
  | (w', Raise e) => (w', Raise e)
  end.
Proof. reflexivity. Qed.

Lemma ret_eq {A} (a : A) (w : World) : (mret a : M A) w = (w, Ok a).
Proof. reflexivity. Qed.

Lemma world_eta (w : World) : mkWorld (users w) (selected w) (events w) = w.
Proof. by destruct w. Qed.

Lemma with_user_eq (i : nat) (k : User -> M unit) (w : World) :
  with_user i k w = match users w !! i with Some u => k u w | None => (w, Ok tt) end.
Proof. unfold with_user. rewrite bind_eq. simpl. by destruct (users w !! i). Qed.

Lemma for_each_seq_pointwise (body : nat -> M unit) (f : User -> User)
    (hs : User -> list string) (g : User -> list Event) :
  (forall i w u, users w !! i = Some u ->
     body i w = (mkWorld (<[i := f u]> (users w)) (selected w ++ hs u)
                   (events w ++ g u), Ok tt)) ->
  forall rest done sel ev,
    for_each body (seq (length done) (length rest)) (mkWorld (done ++ rest) sel ev)
    = (mkWorld (done ++ (f <$> rest)) (sel ++ flat_map hs rest)
         (ev ++ flat_map g rest), Ok tt).
Proof.
  intros Hbody rest. induction rest as [|u rest IH]; intros done sel ev.
  - simpl. by rewrite !app_nil_r.
  - simpl. rewrite bind_eq.
    rewrite (Hbody _ _ u) by (simpl; apply list_lookup_middle; done).
    simpl.
    replace (<[length done := f u]> (done ++ u :: rest)) with ((done ++ [f u]) ++ rest).
    2:{ rewrite insert_app_r_alt by lia. rewrite Nat.sub_diag. simpl. by rewrite <- app_assoc. }
    replace (S (length done)) with (length (done ++ [f u])) by (rewrite length_app; simpl; lia).
    rewrite IH. by rewrite <- !app_assoc.
Qed.

Lemma query_all_eq (w : World) :
  query_all w = (w, Ok (seq 0 (length (users w)))).
Proof. reflexivity. Qed.

Lemma for_each_all_pointwise (body : nat -> M unit) (f : User -> User)
    (hs : User -> list string) (g : User -> list Event) (w : World) :
  (forall i w u, users w !! i = Some u ->
     body i w = (mkWorld (<[i := f u]> (users w)) (selected w ++ hs u)
                   (events w ++ g u), Ok tt)) ->
  for_each body (seq 0 (length (users w))) w
  = (mkWorld (f <$> users w) (selected w ++ flat_map hs (users w))
       (events w ++ flat_map g (users w)), Ok tt).
Proof.
  intros Hbody. destruct w as [us sel ev]; simpl.
  apply (for_each_seq_pointwise body f hs g Hbody us [] sel ev).
Qed.

Lemma flat_map_nil {A B} (l : list A) : flat_map (fun _ : A => @nil B) l = [].
Proof. induction l; simpl; auto. Qed.

(** ** The timeout sweep *)

Lemma update_active_users_eq (env : Env) (rq : Request) (w : World) :
  update_active_users env rq w = (swept env (now rq) w, Ok tt).
Proof.
  unfold update_active_users.
  rewrite bind_eq, query_all_eq, bind_eq.
  rewrite (for_each_all_pointwise _ (expire env (now rq)) (fun _ => [])
    (fun u => if timed_out env (now rq) u
              then [UserChanged (socketio_session_id u)] else [])).
  - unfold swept, sweep, sweep_events, emit. simpl.
    by rewrite flat_map_nil, app_nil_r, <- app_assoc.
  - intros i w0 u Hu. rewrite with_user_eq, Hu.
    unfold expire. destruct (timed_out env (now rq) u) eqn:Ht.
    + unfold timed_out in Ht. apply andb_true_iff in Ht as [Hact _].
      rewrite bind_eq. unfold deactivate_user. rewrite bind_eq. simpl.
      rewrite Hu, Hact. rewrite bind_eq. simpl.
      unfold emit, with_users. simpl. by rewrite app_nil_r.
    + simpl. rewrite list_insert_id by done. rewrite !app_nil_r.
      by rewrite world_eta.
Qed.

Lemma active_logged_in_users_eq (env : Env) (rq : Request) (b : bool) (w : World) :
  active_logged_in_users env rq b w
  = (swept env (now rq) w, Ok (active_names b (sweep env (now rq) (users w)))).
Proof.
  unfold active_logged_in_users. rewrite bind_eq, update_active_users_eq.
  reflexivity.
Qed.

Lemma timed_out_expire (env : Env) (t : Z) (u : User) :
  timed_out env t (expire env t u) = false.
Proof.
  unfold expire. destruct (timed_out env t u) eqn:Ht; [|done].
  unfold timed_out. reflexivity.
Qed.

Lemma expire_idemp (env : Env) (t : Z) (u : User) :
  expire env t (expire env t u) = expire env t u.
Proof. unfold expire at 1. by rewrite timed_out_expire. Qed.

Lemma sweep_idemp (env : Env) (t : Z) (us : list User) :
  sweep env t (sweep env t us) = sweep env t us.
Proof.
  unfold sweep. rewrite <- list_fmap_compose. apply list_fmap_ext.
  intros i u _. simpl. apply expire_idemp.
Qed.

Lemma sweep_delete (env : Env) (t : Z) (i : nat) (us : list User) :
  sweep env t (delete i us) = delete i (sweep env t us).
Proof.
  unfold sweep. revert i. induction us as [|u us IH]; intros [|i]; simpl; auto.
  f_equal. apply IH.
Qed.

Lemma expire_in_control (env : Env) (t : Z) (u : User) :
  in_control (expire env t u) = in_control u.
Proof. unfold expire. by destruct (timed_out env t u). Qed.

Lemma expire_username (env : Env) (t : Z) (u : User) :
  username (expire env t u) = username u.
Proof. unfold expire. by destruct (timed_out env t u). Qed.

Lemma sweep_usernames (env : Env) (t : Z) (us : list User) :
  username <$> sweep env t us = username <$> us.
Proof.
  unfold sweep. rewrite <- list_fmap_compose. apply list_fmap_ext.
  intros i u _. simpl. apply expire_username.
Qed.

(** ** Looking users up *)

Lemma str_in_true (x : string) (l : list string) :
  str_in x l = true <-> x ∈ l.
Proof.
  unfold str_in. rewrite existsb_exists. split.
  - intros (y & Hy & Heq). apply String.eqb_eq in Heq. subst.
    by apply list_elem_of_In.
  - intros Hx. exists x. split; [by apply list_elem_of_In|apply String.eqb_refl].
Qed.

Lemma str_in_false (x : string) (l : list string) :
  str_in x l = false <-> x ∉ l.
Proof.
  rewrite <- str_in_true. destruct (str_in x l); split; done.
Qed.

Lemma get_user_from_absent (name : string) (us : list User) :
  forall k acc, name ∉ username <$> us -> get_user_from name k us acc = acc.
Proof.
  induction us as [|u us IH]; intros k acc Hn; simpl; [done|].
  rewrite fmap_cons, not_elem_of_cons in Hn. destruct Hn as [Hne Hn].
  rewrite IH by done.
  destruct (String.eqb_spec (username u) name); [congruence|done].
Qed.

Lemma get_user_from_present (name : string) (us : list User) :
  forall k acc, name ∈ username <$> us ->
  exists i u, get_user_from name k us acc = Some (k + i)
    /\ us !! i = Some u /\ username u = name
    /\ (forall j v, i < j -> us !! j = Some v -> username v <> name).
Proof.
  induction us as [|u us IH]; intros k acc Hin; simpl.
  - rewrite fmap_nil in Hin. by apply elem_of_nil in Hin.
  - destruct (decide (name ∈ username <$> us)) as [Hin'|Hnin].
    + destruct (IH (S k) (if String.eqb (username u) name then Some k else acc) Hin')
        as (i & v & Hget & Hi & Hv & Hlast).
      exists (S i), v. split_and!; auto.
      * rewrite Hget. f_equal. lia.
      * intros [|j] v' Hlt Hj; [lia|]. simpl in Hj. apply (Hlast j); [lia|done].
    + rewrite get_user_from_absent by done.
      rewrite fmap_cons, elem_of_cons in Hin. destruct Hin as [Heq|?]; [|done].
      exists 0, u. rewrite Heq, String.eqb_refl. simpl.
      split_and!; auto; try (f_equal; lia).
      intros [|j] v' Hlt Hj; [lia|]. simpl in Hj. intros Hv'.
      { apply Hnin. rewrite Heq, <- Hv'. apply list_elem_of_fmap. exists v'. split; [done|].
        apply list_elem_of_lookup. eauto. }
Qed.

Lemma find_user_from_absent (name : string) (us : list User) :
  forall k, name ∉ username <$> us <-> find_user_from name k us = None.
Proof.
  induction us as [|u us IH]; intros k.
  - rewrite fmap_nil. split; [done|]. intros _. apply not_elem_of_nil.
  - rewrite fmap_cons, not_elem_of_cons. simpl.
    destruct (String.eqb_spec (username u) name) as [Heq|Hne].
    + split; [intros [? _]; congruence|done].
    + rewrite <- IH. split; [by intros [_ ?]|]. intros ?; split; [congruence|done].
Qed.

Lemma find_user_from_present (name : string) (us : list User) :
  forall k i u, us !! i = Some u -> username u = name ->
  exists j v, find_user_from name k us = Some (k + j) /\ j <= i
    /\ us !! j = Some v /\ username v = name.
Proof.
  induction us as [|u0 us IH]; intros k i u Hi Hu; [done|]. simpl.
  destruct (String.eqb_spec (username u0) name) as [Heq|Hne].
  - exists 0, u0. split_and!; auto; try (f_equal; lia); try lia.
  - destruct i as [|i]; simpl in Hi; [congruence|].
    destruct (IH (S k) i u Hi Hu) as (j & v & Hf & Hle & Hj & Hv).
    exists (S j), v. split_and!; auto; try (rewrite Hf; f_equal; lia); try lia.
Qed.

Lemma find_user_from_NoDup (us : list User) (i : nat) (u : User) :
  NoDup (username <$> us) -> us !! i = Some u ->
  find_user_from (username u) 0 us = Some i.
Proof.
  intros Hnd Hi.
  destruct (find_user_from_present (username u) us 0 i u Hi eq_refl)
    as (j & v & Hf & _ & Hj & Hv).
  rewrite Hf. f_equal. simpl.
  eapply NoDup_lookup; [exact Hnd| |].
  - rewrite list_lookup_fmap, Hj. simpl. by rewrite Hv.
  - by rewrite list_lookup_fmap, Hi.
Qed.

Lemma active_names_elem (x : string) (b : bool) (us : list User) :
  x ∈ active_names b us ->
  exists u, u ∈ us /\ username u = x /\ active u = true.
Proof.
  unfold active_names. intros Hx. apply list_elem_of_fmap in Hx as (u & -> & Hu).
  apply list_elem_of_In, filter_In in Hu as [Hu Hp].
  exists u. split; [by apply list_elem_of_In|]. split; [done|].
  destruct b; [by apply andb_true_iff in Hp as [? _]|done].
Qed.

Lemma active_names_usernames (x : string) (b : bool) (us : list User) :
  x ∈ active_names b us -> x ∈ username <$> us.
Proof.
  intros Hx. apply active_names_elem in Hx as (u & Hu & <- & _).
  apply list_elem_of_fmap. eauto.
Qed.

(** ** Forced signout *)

Lemma cur_user_anonymous (rq : Request) (w : World) :
  is_anonymous rq w
  = (w, Ok (match cur_user rq w with Some _ => false | None => true end)).
Proof. reflexivity. Qed.

Lemma force_signout_user_absent (rq : Request) (name : string) (w : World) :
  name ∉ username <$> users w ->
  force_signout_user rq name w
  = (w, Raise (AttributeError "'NoneType' object has no attribute 'in_control'")).
Proof.
  intros Hn. unfold force_signout_user, get_user. rewrite !bind_eq. simpl.
  by rewrite get_user_from_absent.
Qed.

Lemma force_signout_user_present (rq : Request) (name : string) (w : World) :
  name ∈ username <$> users w ->
  exists i u, get_user_from name 0 (users w) None = Some i
    /\ users w !! i = Some u /\ username u = name
    /\ force_signout_user rq name w
       = if negb (in_control u)
            || match cur_user rq w with Some _ => false | None => true end
         then (evicted i u w, Ok tt) else (w, Ok tt).
Proof.
  intros Hin.
  destruct (get_user_from_present name (users w) 0 None Hin)
    as (i & u & Hget & Hi & Hu & _).
  exists i, u. simpl in Hget. split_and!; auto.
  unfold force_signout_user, get_user. rewrite !bind_eq. simpl.
  rewrite Hget, with_user_eq, Hi, bind_eq, cur_user_anonymous.
  destruct (negb (in_control u) || _); reflexivity.
Qed.

(** ** Granting and clearing control *)

Lemma db_set_in_control_true_eq (i : nat) (user : User) (w : World) :
  users w !! i = Some user ->
  db_set_in_control i true w
  = (with_users (grant (username user) <$> users w) w, Ok tt).
Proof.
  intros Hi. unfold db_set_in_control. rewrite bind_eq. simpl. rewrite Hi.
  rewrite bind_eq, query_all_eq.
  rewrite (for_each_all_pointwise _ (grant (username user))
             (fun _ => []) (fun _ => [])).
  - unfold with_users. by rewrite !flat_map_nil, !app_nil_r.
  - intros j w0 u Hj. rewrite with_user_eq, Hj.
    unfold modify_users, with_users, grant. by rewrite !app_nil_r.
Qed.

Lemma db_set_in_control_false_eq (i : nat) (user : User) (w : World) :
  users w !! i = Some user ->
  exists k uk, k <= i /\ users w !! k = Some uk /\ username uk = username user
    /\ find_user_from (username user) 0 (users w) = Some k
    /\ db_set_in_control i false w
       = (with_users (<[k := set_in_control false uk]> (users w)) w, Ok tt).
Proof.
  intros Hi.
  destruct (find_user_from_present (username user) (users w) 0 i user Hi eq_refl)
    as (k & uk & Hf & Hle & Hk & Huk).
  exists k, uk. simpl in Hf. split_and!; auto.
  unfold db_set_in_control. rewrite bind_eq. simpl. rewrite Hi.
  unfold find_user. rewrite !bind_eq. simpl. rewrite Hf.
  by rewrite with_user_eq, Hk.
Qed.

Lemma lowered_refl (us : list User) : lowered us us.
Proof. apply Forall2_same_length_lookup. split; [done|]. intros ? ? ? ? ?. left. congruence. Qed.

Lemma lowered_insert (us : list User) (k : nat) (u : User) :
  us !! k = Some u -> lowered us (<[k := set_in_control false u]> us).
Proof.
  intros Hk. apply Forall2_same_length_lookup. split; [by rewrite length_insert|].
  intros j x y Hx Hy. destruct (decide (k = j)) as [->|Hne].
  - rewrite list_lookup_insert_eq in Hy by (by eapply lookup_lt_Some).
    right. congruence.
  - rewrite list_lookup_insert_ne in Hy by done. left. congruence.
Qed.

Lemma lowered_trans (us1 us2 us3 : list User) :
  lowered us1 us2 -> lowered us2 us3 -> lowered us1 us3.
Proof.
  unfold lowered. rewrite !Forall2_same_length_lookup.
  intros [Hl1 H1] [Hl2 H2]. split; [congruence|].
  intros j x z Hx Hz.
  destruct (us2 !! j) as [y|] eqn:Hy.
  - pose proof (H1 j x y Hx Hy) as Hxy. pose proof (H2 j y z Hy Hz) as Hyz.
    destruct Hxy as [->| ->], Hyz as [->| ->]; auto.
  - apply lookup_lt_Some in Hx. apply lookup_ge_None in Hy. lia.
Qed.

Lemma lowered_lookup (us us' : list User) (i : nat) (u : User) :
  lowered us us' -> us !! i = Some u ->
  exists u', us' !! i = Some u' /\ (u' = u \/ u' = set_in_control false u).
Proof.
  intros Hl Hi. destruct (Forall2_lookup_l _ _ _ _ _ Hl Hi) as (u' & Hu' & Hor).
  eauto.
Qed.

(** The first loop of [update_operator] from position [k] on. *)
Lemma demote_loop_spec (env : Env) (n : nat) :
  forall k w flag, k + n = length (users w) ->
  exists us',
    demote_loop env (seq k n) flag w
    = (with_users us' w,
       Ok (flag || existsb (is_controlling env) (drop k (users w))))
    /\ lowered (users w) us'.
Proof.
  induction n as [|n IH]; intros k w flag Hlen.
  - exists (users w). simpl. split; [|apply lowered_refl].
    rewrite drop_ge by lia. simpl. rewrite orb_false_r.
    unfold with_users. by rewrite world_eta.
  - destruct (lookup_lt_is_Some_2 (users w) k) as [u Hu]; [lia|].
    simpl. rewrite bind_eq. simpl. rewrite Hu.
    rewrite (drop_S _ _ _ Hu). simpl. fold (is_controlling env u).
    destruct (is_controlling env u) eqn:Hc.
    + destruct (IH (S k) w true) as (us' & Heq & Hlow); [lia|].
      exists us'. rewrite Heq. rewrite orb_true_r. done.
    + destruct (db_set_in_control_false_eq k u w Hu)
        as (j & uj & Hle & Hj & _ & _ & Hset).
      rewrite bind_eq, Hset.
      destruct (IH (S k) (with_users (<[j := set_in_control false uj]> (users w)) w) flag)
        as (us' & Heq & Hlow); [simpl; rewrite length_insert; lia|].
      exists us'. rewrite Heq. simpl. rewrite drop_insert_lt by lia.
      split; [done|]. eapply lowered_trans; [|exact Hlow]. by apply lowered_insert.
Qed.

(** With unique names the loop clears exactly the users that are not in
    control as authenticated users. *)
Lemma demote_loop_NoDup (env : Env) (n : nat) :
  forall k w flag, k + n = length (users w) -> NoDup (username <$> users w) ->
  demote_loop env (seq k n) flag w
  = (with_users (take k (users w) ++ (demote env <$> drop k (users w))) w,
     Ok (flag || existsb (is_controlling env) (drop k (users w)))).
Proof.
  induction n as [|n IH]; intros k w flag Hlen Hnd.
  - simpl. rewrite drop_ge by lia. simpl. rewrite orb_false_r, app_nil_r.
    rewrite take_ge by lia. unfold with_users. by rewrite world_eta.
  - destruct (lookup_lt_is_Some_2 (users w) k) as [u Hu]; [lia|].
    simpl. rewrite bind_eq. simpl. rewrite Hu.
    rewrite (drop_S _ _ _ Hu), fmap_cons. simpl existsb.
    fold (is_controlling env u).
    destruct (is_controlling env u) eqn:Hc.
    + rewrite IH by (done || lia). rewrite orb_true_r.
      rewrite (take_S_r _ _ _ Hu), <- app_assoc.
      unfold demote at 2. by rewrite Hc.
    + destruct (db_set_in_control_false_eq k u w Hu)
        as (j & uj & Hle & Hj & _ & Hf & Hset).
      rewrite (find_user_from_NoDup _ _ _ Hnd Hu) in Hf. injection Hf as <-.
      assert (uj = u) as -> by congruence.
      rewrite bind_eq, Hset.
      rewrite IH; simpl.
      * rewrite drop_insert_lt by lia.
        rewrite take_insert_lt by lia.
        rewrite (take_S_r _ _ _ Hu), insert_app_r_alt by (rewrite length_take; lia).
        rewrite length_take, Nat.min_l by lia. rewrite Nat.sub_diag. simpl.
        rewrite <- app_assoc. unfold demote at 2. by rewrite Hc.
      * rewrite length_insert. lia.
      * rewrite list_fmap_insert. simpl. rewrite list_insert_id; [done|].
        by rewrite list_lookup_fmap, Hu.
Qed.

(** ** [update_operator] *)

Lemma set_current_nickname_eq (rq : Request) (n : string) (i : nat) (cu : User)
    (w : World) :
  current_user rq = Some i -> users w !! i = Some cu ->
  set_current_nickname rq n w
  = (with_users (<[i := set_nickname n cu]> (users w)) w, Ok tt).
Proof.
  intros Hc Hi. unfold set_current_nickname. rewrite Hc, with_user_eq, Hi.
  reflexivity.
Qed.

Lemma select_loop_eq (env : Env) (w : World) :
  for_each (fun i => with_user i (select_for env)) (seq 0 (length (users w))) w
  = (mkWorld (users w) (selected w ++ flat_map (proposals_of env) (users w))
       (events w), Ok tt).
Proof.
  rewrite (for_each_all_pointwise _ (fun u => u) (proposals_of env) (fun _ => [])).
  - by rewrite list_fmap_id, flat_map_nil, app_nil_r.
  - intros i w0 u Hi. rewrite with_user_eq, Hi, list_insert_id by done.
    rewrite app_nil_r. unfold select_for, proposals_of, is_controlling.
    destruct (is_authenticated env u && in_control u);
      [|by rewrite app_nil_r, world_eta].
    destruct (negb (user_mode env)); [done|].
    destruct (selected_proposal u) as [p|]; [|by rewrite app_nil_r, world_eta].
    destruct (String.eqb p ""); [by rewrite app_nil_r, world_eta|done].
Qed.

Lemma update_operator_spec (env : Env) (rq : Request) (new_login : bool)
    (w : World) (i : nat) (cu : User) :
  current_user rq = Some i -> users w !! i = Some cu ->
  exists us1 cu1,
    lowered (users w) us1 /\ us1 !! i = Some cu1
    /\ (cu1 = cu \/ cu1 = set_in_control false cu)
    /\ (NoDup (username <$> users w) -> us1 = demote env <$> users w)
    /\ update_operator env rq new_login w
       = (let us4 := after_update_operator env i new_login
                       (existsb (is_controlling env) (users w)) us1 cu1 in
          mkWorld us4 (selected w ++ flat_map (proposals_of env) us4) (events w),
          Ok tt).
Proof.
  intros Hc Hi.
  destruct (demote_loop_spec env (length (users w)) 0 w false eq_refl)
    as (us1 & Hloop & Hlow).
  destruct (lowered_lookup _ _ _ _ Hlow Hi) as (cu1 & Hi1 & Hcu1).
  exists us1, cu1. split_and!; auto.
  { intros Hnd. rewrite (demote_loop_NoDup env _ 0 w false eq_refl Hnd) in Hloop.
    rewrite take_0, drop_0 in Hloop. unfold with_users in Hloop. simpl in Hloop.
    by injection Hloop. }
  rewrite drop_0 in Hloop. simpl in Hloop.
  unfold update_operator. rewrite bind_eq, query_all_eq, bind_eq, Hloop.
  unfold after_update_operator.
  set (flag := existsb (is_controlling env) (users w)).
  set (cu2 := if new_login then set_nickname "" cu1 else cu1).
  rewrite bind_eq.
  assert ((if new_login then set_current_nickname rq "" else mret tt)
            (with_users us1 w)
          = (with_users (<[i := cu2]> us1) w, Ok tt)) as ->.
  { unfold cu2. destruct new_login.
    - by rewrite (set_current_nickname_eq rq "" i cu1).
    - by rewrite list_insert_id. }
  assert (<[i := cu2]> us1 !! i = Some cu2) as Hi2.
  { apply list_lookup_insert_eq. by eapply lookup_lt_Some. }
  rewrite bind_eq. destruct flag; unfold negb at 1; cbv beta iota.
  - rewrite ret_eq. cbv beta iota. rewrite bind_eq, query_all_eq. cbv beta iota.
    apply (select_loop_eq env (with_users _ w)).
  - rewrite bind_eq. simpl. unfold cur_user. rewrite Hc. simpl. rewrite Hi2.
    rewrite bind_eq.
    rewrite (set_current_nickname_eq rq _ i cu2) by done.
    simpl.
    erewrite db_set_in_control_true_eq;
      [|simpl; apply list_lookup_insert_eq; rewrite length_insert;
        by eapply lookup_lt_Some].
    cbv beta iota. rewrite bind_eq, query_all_eq. cbv beta iota.
    apply (select_loop_eq env (with_users _ w)).
Qed.

(** ** Admission *)

Lemma cur_user_swept (env : Env) (rq : Request) (w : World) :
  cur_user rq (swept env (now rq) w) = expire env (now rq) <$> cur_user rq w.
Proof.
  unfold cur_user. destruct (current_user rq) as [i|]; [|done].
  simpl. unfold sweep. by rewrite list_lookup_fmap.
Qed.

(** The rules after the first one, as a decision table. *)
Lemma admission_rules_eq (env : Env) (rq : Request) (login_id : string)
    (login_res : LoginRes env) (active_users : list string) (w : World) :
  admission_rules env rq login_id login_res active_users w =
  let inhouse := is_inhouse_user env login_id in
  let w' := swept env (now rq) w in
  let non_inhouse := active_names true (sweep env (now rq) (users w)) in
  if inhouse && negb (inhouse && local_host rq)
  then (w, Raise (Exception msg_inhouse_local))
  else if negb inhouse && truthy non_inhouse
          && negb (str_in login_id (split_hyphen_0 <$> non_inhouse))
          && negb (user_mode env)
  then (w', Raise (Exception msg_another_user))
  else if match cur_user rq w' with
          | Some cu => truthy active_users
                       && negb (String.eqb (username cu) login_id)
                       && user_mode env
          | None => false
          end
  then (w', Raise (Exception msg_another_user))
  else if negb (ALLOW_REMOTE env) && negb (local_host rq)
  then (w', Raise (Exception msg_remote_disabled))
  else if lims_valid_login env login_res
  then (w', Ok (if lims_existing_session env login_res
                then login_res else create_lims_session env login_res))
  else (w', Raise (Exception
          (str_info (lims_valid_login env login_res) (local_host rq)
             (lims_existing_session env login_res)
             (is_inhouse_user env login_id)))).
Proof.
  unfold admission_rules. cbv zeta. rewrite bind_eq.
  destruct (is_inhouse_user env login_id && _) eqn:H2; [done|].
  rewrite ret_eq. cbv beta iota.
  rewrite bind_eq, active_logged_in_users_eq. cbv beta iota.
  rewrite bind_eq.
  destruct (negb (is_inhouse_user env login_id) && _ && _ && _) eqn:H3; [done|].
  rewrite ret_eq. cbv beta iota.
  rewrite bind_eq. unfold get_world at 1. cbv beta iota.
  rewrite bind_eq.
  destruct (cur_user rq (swept env (now rq) w)) as [cu|].
  - destruct (truthy active_users && _ && _); [done|].
    rewrite ret_eq. cbv beta iota. rewrite bind_eq.
    destruct (negb (ALLOW_REMOTE env) && _); [done|].
    rewrite ret_eq. cbv beta iota.
    by destruct (lims_valid_login env login_res).
  - rewrite ret_eq. cbv beta iota. rewrite bind_eq.
    destruct (negb (ALLOW_REMOTE env) && _); [done|].
    rewrite ret_eq. cbv beta iota.
    by destruct (lims_valid_login env login_res).
Qed.

Lemma admission_rules_users (env : Env) (rq : Request) (login_id : string)
    (login_res : LoginRes env) (active_users : list string) (w : World) :
  sweep env (now rq) (users w) = users w ->
  users (fst (admission_rules env rq login_id login_res active_users w)) = users w.
Proof.
  intros Hfix. rewrite admission_rules_eq. cbv zeta.
  repeat match goal with
         | |- context [if ?c then _ else _] => destruct c
         end; simpl; auto.
Qed.

(** The first rule, on the swept world. *)
Lemma self_conflict_rule_eq (rq : Request) (login_id : string)
    (active_users : list string) (w : World) :
  (forall x, x ∈ active_users -> x ∈ username <$> users w) ->
  self_conflict_rule rq login_id active_users w =
  if str_in login_id active_users then
    match cur_user rq w with
    | Some cu =>
        (w, Raise (Exception
              (if String.eqb (username cu) login_id
               then msg_already_logged_in else msg_logged_in_elsewhere)))
    | None =>
        match get_user_from login_id 0 (users w) None with
        | Some i =>
            match users w !! i with
            | Some u => (evicted i u w, Ok tt)
            | None => (w, Ok tt)
            end
        | None =>
            (w, Raise (AttributeError "'NoneType' object has no attribute 'in_control'"))
        end
    end
  else (w, Ok tt).
Proof.
  intros Hsub. unfold self_conflict_rule.
  destruct (str_in login_id active_users) eqn:Hin; [|done].
  rewrite bind_eq. unfold get_world. cbv beta iota.
  destruct (cur_user rq w) as [cu|] eqn:Hcu.
  - by destruct (String.eqb (username cu) login_id).
  - apply str_in_true, Hsub in Hin.
    destruct (force_signout_user_present rq login_id w Hin)
      as (i & u & Hget & Hi & _ & Hfs).
    rewrite Hfs, Hget, Hi, Hcu. by rewrite orb_true_r.
Qed.

Lemma _login_eq (env : Env) (rq : Request) (login_id password : string) (w : World) :
  _login env rq login_id password w =
  let names := active_names false (sweep env (now rq) (users w)) in
  match self_conflict_rule rq login_id names (swept env (now rq) w) with
  | (w', Ok _) =>
      admission_rules env rq login_id (lims_login env login_id password) names w'
  | (w', Raise e) => (w', Raise e)
  end.
Proof.
  unfold _login. cbv zeta. rewrite bind_eq, active_logged_in_users_eq.
  cbv beta iota. by rewrite bind_eq.
Qed.

Lemma login_raises (env : Env) (rq : Request) (login_id password : string)
    (w w' : World) (e : exn) :
  _login env rq login_id password w = (w', Raise e) ->
  login env rq login_id password w = (w', Raise e).
Proof.
  intros H. unfold login, BaseUserManager_login. by rewrite bind_eq, H.
Qed.

Lemma swept_names_sub (env : Env) (t : Z) (b : bool) (w : World) (x : string) :
  x ∈ active_names b (sweep env t (users w)) ->
  x ∈ username <$> users (swept env t w).
Proof. apply active_names_usernames. Qed.

Lemma self_conflict_rule_cases (rq : Request) (login_id : string)
    (active_users : list string) (w : World) :
  (forall x, x ∈ active_users -> x ∈ username <$> users w) ->
  (str_in login_id active_users = false
   /\ self_conflict_rule rq login_id active_users w = (w, Ok tt))
  \/ (str_in login_id active_users = true
      /\ exists cu, cur_user rq w = Some cu
         /\ self_conflict_rule rq login_id active_users w
            = (w, Raise (Exception
                   (if String.eqb (username cu) login_id
                    then msg_already_logged_in else msg_logged_in_elsewhere))))
  \/ (str_in login_id active_users = true /\ cur_user rq w = None
      /\ exists i u, get_user_from login_id 0 (users w) None = Some i
         /\ users w !! i = Some u /\ username u = login_id
         /\ self_conflict_rule rq login_id active_users w = (evicted i u w, Ok tt)).
Proof.
  intros Hsub. rewrite self_conflict_rule_eq by done.
  destruct (str_in login_id active_users) eqn:Hin; [|by left].
  right. destruct (cur_user rq w) as [cu|] eqn:Hcu; [left; eauto|].
  right. split_and!; auto.
  apply str_in_true, Hsub in Hin.
  destruct (get_user_from_present login_id (users w) 0 None Hin)
    as (i & u & Hget & Hi & Hu & _).
  simpl in Hget. exists i, u. by rewrite Hget, Hi.
Qed.

Lemma NoDup_delete_lookup {A} (l : list A) (i : nat) (x : A) :
  NoDup l -> l !! i = Some x -> x ∉ delete i l.
Proof.
  intros Hnd Hi. rewrite <- (take_drop_middle l i x Hi) in Hnd.
  rewrite delete_take_drop.
  apply NoDup_app in Hnd as (_ & Hl & Hr). apply NoDup_cons in Hr as [Hr _].
  rewrite elem_of_app. intros [H|H]; [|done]. apply (Hl x H). by left.
Qed.

Lemma fmap_delete_list {A B} (f : A -> B) (i : nat) (l : list A) :
  f <$> delete i l = delete i (f <$> l).
Proof.
  revert i. induction l as [|a l IH]; intros [|i]; simpl; auto.
  f_equal. apply IH.
Qed.

(** ** Invariant of the datastore *)

Lemma no_grant_refl (us : list User) : no_grant us us.
Proof. apply Forall_Forall2_diag, Forall_forall. auto. Qed.

Lemma no_grant_trans (us1 us2 us3 : list User) :
  no_grant us1 us2 -> no_grant us2 us3 -> no_grant us1 us3.
Proof.
  unfold no_grant. intros H12. revert us3.
  induction H12 as [|u1 u2 l1 l2 [Hn Hc] _ IH]; intros us3 H23.
  - by apply Forall2_nil_inv_l in H23 as ->.
  - apply Forall2_cons_inv_l in H23 as (u3 & l3 & [Hn' Hc'] & H23 & ->).
    constructor; [|by apply IH]. split; [congruence|auto].
Qed.

Lemma no_grant_fmap (f : User -> User) (us : list User) :
  (forall u, username (f u) = username u
             /\ (in_control (f u) = true -> in_control u = true)) ->
  no_grant us (f <$> us).
Proof.
  intros Hf. unfold no_grant. induction us as [|u us IH]; [constructor|].
  rewrite fmap_cons. constructor; auto.
Qed.

Lemma no_grant_insert (us : list User) (i : nat) (u u' : User) :
  us !! i = Some u -> username u' = username u ->
  (in_control u' = true -> in_control u = true) ->
  no_grant us (<[i := u']> us).
Proof.
  intros Hi Hn Hc. apply Forall2_same_length_lookup.
  split; [by rewrite length_insert|].
  intros j x y Hx Hy. destruct (decide (i = j)) as [->|Hne].
  - rewrite list_lookup_insert_eq in Hy by (by eapply lookup_lt_Some).
    assert (x = u) as -> by congruence. assert (y = u') as -> by congruence. done.
  - rewrite list_lookup_insert_ne in Hy by done.
    assert (x = y) as -> by congruence. done.
Qed.

Lemma lowered_no_grant (us us' : list User) : lowered us us' -> no_grant us us'.
Proof.
  unfold lowered, no_grant. intros H. eapply Forall2_impl; [exact H|].
  intros u u' [->| ->]; simpl; auto. split; [done|]. discriminate.
Qed.

Lemma no_grant_usernames (us us' : list User) :
  no_grant us us' -> username <$> us' = username <$> us.
Proof.
  induction 1 as [|u u' l l' [Hn _] _ IH]; [done|].
  rewrite !fmap_cons. by f_equal.
Qed.

Lemma no_grant_count (us us' : list User) :
  no_grant us us' ->
  length (List.filter in_control us') <= length (List.filter in_control us).
Proof.
  induction 1 as [|u u' l l' [_ Hc] _ IH]; [done|]. simpl.
  destruct (in_control u') eqn:Hu'.
  - rewrite (Hc eq_refl). simpl. lia.
  - destruct (in_control u); simpl; lia.
Qed.

Lemma registry_ok_no_grant (us us' : list User) :
  registry_ok us -> no_grant us us' -> registry_ok us'.
Proof.
  intros [Hnd Hc] Hrel. split.
  - by rewrite (no_grant_usernames _ _ Hrel).
  - pose proof (no_grant_count _ _ Hrel). lia.
Qed.

Lemma filter_delete_length {A} (p : A -> bool) (i : nat) (l : list A) :
  length (List.filter p (delete i l)) <= length (List.filter p l).
Proof.
  revert i. induction l as [|a l IH]; intros [|i]; simpl; auto.
  - destruct (p a); simpl; lia.
  - specialize (IH i). destruct (p a); simpl; lia.
Qed.

Lemma registry_ok_delete (us : list User) (i : nat) :
  registry_ok us -> registry_ok (delete i us).
Proof.
  intros [Hnd Hc]. split.
  - rewrite fmap_delete_list.
    eapply sublist_NoDup; [exact Hnd|]. apply sublist_delete.
  - pose proof (filter_delete_length in_control i us). lia.
Qed.

Lemma registry_ok_snoc (us : list User) (u : User) :
  registry_ok us -> username u ∉ username <$> us -> in_control u = false ->
  registry_ok (us ++ [u]).
Proof.
  intros [Hnd Hc] Hfresh Hu. split.
  - rewrite fmap_app. apply NoDup_app. split_and!; [done| |apply NoDup_singleton].
    intros x Hx Hx'. apply list_elem_of_singleton in Hx'. by subst.
  - rewrite List.filter_app. simpl. rewrite Hu, app_nil_r. done.
Qed.

Lemma grant_count (name : string) (us : list User) :
  NoDup (username <$> us) ->
  length (List.filter in_control (grant name <$> us)) <= 1.
Proof.
  induction us as [|u us IH]; [simpl; lia|].
  rewrite !fmap_cons. intros [Hu Hnd]%NoDup_cons. simpl.
  destruct (String.eqb_spec (username u) name) as [Heq|Hne]; [|by apply IH].
  simpl. assert (List.filter in_control (grant name <$> us) = []) as ->; [|done].
  clear IH Hnd. induction us as [|v us IH]; [done|].
  rewrite fmap_cons in *. apply not_elem_of_cons in Hu as [Hv Hu].
  simpl. destruct (String.eqb_spec (username v) name); [congruence|by apply IH].
Qed.

Lemma grant_usernames (name : string) (us : list User) :
  username <$> (grant name <$> us) = username <$> us.
Proof. rewrite <- list_fmap_compose. by apply list_fmap_ext. Qed.

Lemma registry_ok_grant (name : string) (us : list User) :
  NoDup (username <$> us) -> registry_ok (grant name <$> us).
Proof.
  intros Hnd. split; [by rewrite grant_usernames|by apply grant_count].
Qed.

Lemma registry_ok_sweep (env : Env) (t : Z) (us : list User) :
  registry_ok us -> registry_ok (sweep env t us).
Proof.
  intros H. eapply registry_ok_no_grant; [exact H|].
  apply no_grant_fmap. intros u. rewrite expire_username, expire_in_control. auto.
Qed.

Lemma controlling_count (env : Env) (us : list User) :
  length (controlling env us) <= length (List.filter in_control us).
Proof.
  unfold controlling. induction us as [|u us IH]; [done|]. simpl.
  destruct (in_control u); [|by rewrite andb_false_r].
  destruct (active u && is_authenticated env u); simpl; lia.
Qed.

(** ** Creating a session *)

Lemma find_user_from_Some (name : string) (us : list User) :
  forall k j, find_user_from name k us = Some j ->
  k <= j /\ exists u, us !! (j - k) = Some u /\ username u = name.
Proof.
  induction us as [|u0 us IH]; intros k j; simpl; [done|].
  destruct (String.eqb_spec (username u0) name) as [Heq|Hne].
  - intros [= <-]. split; [lia|]. rewrite Nat.sub_diag. eauto.
  - intros Hf. destruct (IH (S k) j Hf) as (Hle & u & Hu & Hn).
    split; [lia|]. exists u. split; [|done].
    replace (j - k) with (S (j - S k)) by lia. done.
Qed.

Lemma find_user_from_ext (name : string) (us us' : list User) (k : nat) :
  username <$> us = username <$> us' ->
  find_user_from name k us = find_user_from name k us'.
Proof.
  revert us' k. induction us as [|u us IH]; intros [|u' us'] k Heq;
    try done; rewrite !fmap_cons in Heq.
  injection Heq as Hu Hrest. simpl. rewrite Hu.
  destruct (String.eqb (username u') name); [done|by apply IH].
Qed.

Lemma find_user_from_snoc (name : string) (us : list User) (u : User) :
  forall k, name ∉ username <$> us -> username u = name ->
  find_user_from name k (us ++ [u]) = Some (k + length us).
Proof.
  induction us as [|u0 us IH]; intros k Hn Hu; simpl.
  - rewrite Hu, String.eqb_refl. f_equal. lia.
  - rewrite fmap_cons in Hn. apply not_elem_of_cons in Hn as [Hne Hn].
    destruct (String.eqb_spec (username u0) name); [congruence|].
    rewrite IH by done. f_equal. lia.
Qed.

Lemma append_roles_fields (rs : list string) (u : User) :
  username (append_roles rs u) = username u
  /\ in_control (append_roles rs u) = in_control u.
Proof. done. Qed.

Lemma find_user_eq (name : string) (w : World) :
  find_user name w = (w, Ok (find_user_from name 0 (users w))).
Proof. reflexivity. Qed.

Lemma db_create_user_spec (env : Env) (rq : Request) (user password : string)
    (lims_data : LoginRes env) (sid : string) (w : World) :
  roles_storable env user = true ->
  exists us' i nu,
    db_create_user env rq user password lims_data sid w
    = (with_users us' w, Ok (Some i))
    /\ us' !! i = Some nu
    /\ username nu = stored_name env rq user
    /\ (registry_ok (users w) -> registry_ok us').
Proof.
  intros Hroles.
  unfold db_create_user. fold (stored_name env rq user). cbv zeta.
  set (uname := stored_name env rq user).
  rewrite bind_eq, find_user_eq. cbv beta iota. rewrite Hroles.
  destruct (find_user_from uname 0 (users w)) as [k|] eqn:Hf.
  - destruct (find_user_from_Some _ _ _ _ Hf) as (_ & uk & Hk & Hn).
    rewrite Nat.sub_0_r in Hk.
    rewrite bind_eq, with_user_eq, Hk. unfold modify_users. cbv beta iota.
    fold (refreshed env user lims_data uk).
    assert (no_grant (users w) (<[k := refreshed env user lims_data uk]> (users w)))
      as Hrel by (by apply (no_grant_insert _ _ uk)).
    exists (<[k := refreshed env user lims_data uk]> (users w)), k,
      (refreshed env user lims_data uk).
    split_and!.
    + rewrite find_user_eq. simpl users.
      rewrite (find_user_from_ext uname _ (users w))
        by (by apply no_grant_usernames). by rewrite Hf.
    + apply list_lookup_insert_eq. by eapply lookup_lt_Some.
    + done.
    + intros Hok. by eapply registry_ok_no_grant.
  - apply find_user_from_absent in Hf.
    rewrite bind_eq. unfold modify_users at 1. cbv beta iota.
    set (nu := mkUser uname user sid None _ _ _ true false None).
    exists (users w ++ [nu]), (length (users w)), nu.
    split_and!.
    + rewrite find_user_eq. simpl users. by rewrite (find_user_from_snoc uname).
    + by apply list_lookup_middle.
    + done.
    + intros Hok. by apply registry_ok_snoc.
Qed.

Lemma db_create_user_raises (env : Env) (rq : Request) (user password : string)
    (lims_data : LoginRes env) (sid : string) (w : World) :
  roles_storable env user = false ->
  db_create_user env rq user password lims_data sid w
  = (w, Raise (FlushError msg_flush)).
Proof.
  intros Hroles. unfold db_create_user. cbv zeta.
  rewrite bind_eq, find_user_eq. cbv beta iota. by rewrite Hroles.
Qed.

Lemma roles_storable_no_config (env : Env) (user : string) :
  config_users env = [] -> roles_storable env user = true.
Proof.
  intros Hc. unfold roles_storable, _get_configured_roles. rewrite Hc. simpl.
  by destruct (inhouse_is_staff env && is_inhouse_user env user).
Qed.

Lemma set_active_id (u : User) : set_active (active u) u = u.
Proof. by destruct u. Qed.

Lemma activate_user_eq (i : nat) (u : User) (w : World) :
  users w !! i = Some u ->
  exists r, activate_user i w
            = (with_users (<[i := set_active true u]> (users w)) w, Ok r).
Proof.
  intros Hi. unfold activate_user. rewrite bind_eq. unfold get_world.
  cbv beta iota. rewrite Hi. destruct (active u) eqn:Ha.
  - exists false. rewrite ret_eq. rewrite <- Ha, set_active_id.
    rewrite list_insert_id by done. unfold with_users. by rewrite world_eta.
  - exists true. by rewrite bind_eq.
Qed.

(** ** Operations keep the datastore well formed *)

Lemma after_update_operator_ok (env : Env) (i : nat) (new_login flag : bool)
    (us1 : list User) (cu1 : User) :
  registry_ok us1 -> us1 !! i = Some cu1 ->
  registry_ok (after_update_operator env i new_login flag us1 cu1).
Proof.
  intros Hok Hi. unfold after_update_operator. cbv zeta.
  set (cu2 := if new_login then set_nickname "" cu1 else cu1).
  assert (username cu2 = username cu1 /\ in_control cu2 = in_control cu1)
    as [Hn Hc] by (unfold cu2; by destruct new_login).
  assert (no_grant us1 (<[i := cu2]> us1)) as Hrel
    by (apply (no_grant_insert _ _ cu1); auto; congruence).
  destruct flag; [by eapply registry_ok_no_grant|].
  apply registry_ok_grant. rewrite list_fmap_insert. simpl.
  rewrite list_insert_id; [rewrite (no_grant_usernames _ _ Hrel); apply Hok|].
  rewrite list_lookup_fmap, list_lookup_insert_eq by (by eapply lookup_lt_Some).
  done.
Qed.

Lemma update_operator_ok (env : Env) (rq : Request) (new_login : bool)
    (w : World) (i : nat) (cu : User) :
  current_user rq = Some i -> users w !! i = Some cu ->
  exists w', update_operator env rq new_login w = (w', Ok tt)
    /\ (registry_ok (users w) -> registry_ok (users w')).
Proof.
  intros Hc Hi.
  destruct (update_operator_spec env rq new_login w i cu Hc Hi)
    as (us1 & cu1 & Hlow & Hi1 & _ & _ & Heq).
  eexists. split; [exact Heq|]. cbv zeta. simpl. intros Hok.
  apply after_update_operator_ok; [|done].
  eapply registry_ok_no_grant; [exact Hok|by apply lowered_no_grant].
Qed.

Lemma login_ok_spec (env : Env) (rq : Request) (login_id password : string)
    (w w1 : World) (r : LoginRes env) :
  _login env rq login_id password w = (w1, Ok r) ->
  exists w', login env rq login_id password w
             = (w', if roles_storable env login_id then Ok tt
                    else Raise (FlushError msg_flush))
    /\ (registry_ok (users w1) -> registry_ok (users w')).
Proof.
  intros Hl. unfold login, BaseUserManager_login. rewrite bind_eq, Hl.
  cbv zeta. rewrite bind_eq, update_active_users_eq. cbv beta iota.
  destruct (roles_storable env login_id) eqn:Hroles; cycle 1.
  { rewrite bind_eq, db_create_user_raises by done.
    eexists. split; [reflexivity|]. simpl. apply registry_ok_sweep. }
  destruct (db_create_user_spec env rq login_id password r
              (default (uuid_sid rq) (session_sid rq)) (swept env (now rq) w1)
              Hroles)
    as (us3 & i & nu & Hcreate & Hi & _ & Hok3).
  rewrite bind_eq, Hcreate.
  destruct (activate_user_eq i nu (with_users us3 (swept env (now rq) w1)) Hi)
    as (b & Hact).
  rewrite bind_eq, Hact.
  destruct (update_operator_ok env (as_user i rq) true
              (with_users (<[i := set_active true nu]> us3)
                 (with_users us3 (swept env (now rq) w1)))
              i (set_active true nu) eq_refl) as (w' & Hup & Hok').
  { simpl. apply list_lookup_insert_eq. by eapply lookup_lt_Some. }
  exists w'. split; [exact Hup|]. intros Hok1. apply Hok'. simpl.
  eapply registry_ok_no_grant; [apply Hok3, registry_ok_sweep, Hok1|].
  by apply (no_grant_insert _ _ nu).
Qed.

Lemma deactivate_user_eq (i : nat) (u : User) (w : World) :
  users w !! i = Some u ->
  deactivate_user i w
  = (with_users (<[i := set_active false u]> (users w)) w, Ok (active u)).
Proof.
  intros Hi. unfold deactivate_user. rewrite bind_eq. unfold get_world.
  cbv beta iota. rewrite Hi. destruct (active u) eqn:Ha.
  - by rewrite bind_eq.
  - rewrite ret_eq, <- Ha, set_active_id, list_insert_id by done.
    unfold with_users. by rewrite world_eta.
Qed.

Lemma is_operator_eq (rq : Request) (w : World) :
  is_operator rq w
  = (w, Ok (match cur_user rq w with Some cu => in_control cu | None => false end)).
Proof. reflexivity. Qed.

Lemma signout_no_grant (rq : Request) (w : World) :
  no_grant (users w) (users (fst (signout rq w))).
Proof.
  unfold signout. rewrite bind_eq, is_operator_eq. unfold cur_user.
  destruct (current_user rq) as [i|]; cbv beta iota.
  2:{ rewrite bind_eq, ret_eq. cbv beta iota. rewrite bind_eq. simpl.
      apply no_grant_refl. }
  destruct (users w !! i) as [cu|] eqn:Hi.
  2:{ rewrite bind_eq, ret_eq. cbv beta iota. rewrite bind_eq.
      unfold deactivate_user. rewrite !bind_eq. unfold get_world. cbv beta iota.
      rewrite Hi. simpl. apply no_grant_refl. }
  destruct (in_control cu) eqn:Hctl.
  - rewrite !bind_eq. unfold emit at 1. cbv beta iota.
    destruct (db_set_in_control_false_eq i cu
                (mkWorld (users w) (selected w) (events w ++ [ResourceReset])) Hi)
      as (k & uk & _ & Hk & Hn & _ & ->).
    cbv beta iota. simpl users in *.
    set (us1 := <[k := set_in_control false uk]> (users w)).
    assert (no_grant (users w) us1) as Hrel1.
    { apply (no_grant_insert _ _ uk); auto. discriminate. }
    destruct (us1 !! i) as [cu1|] eqn:Hi1.
    2:{ apply lookup_ge_None in Hi1. apply lookup_lt_Some in Hi.
        unfold us1 in Hi1. rewrite length_insert in Hi1. lia. }
    rewrite !bind_eq. erewrite deactivate_user_eq by exact Hi1.
    cbv beta iota. rewrite ret_eq. simpl.
    eapply no_grant_trans; [exact Hrel1|]. by apply (no_grant_insert _ _ cu1).
  - rewrite bind_eq, ret_eq. cbv beta iota. rewrite !bind_eq.
    rewrite (deactivate_user_eq i cu w Hi). cbv beta iota. rewrite ret_eq. simpl.
    by apply (no_grant_insert _ _ cu).
Qed.

Lemma touch_no_grant (rq : Request) (w : World) :
  no_grant (users w) (users (fst (touch rq w))).
Proof.
  unfold touch. destruct (current_user rq) as [i|]; [|apply no_grant_refl].
  rewrite with_user_eq. destruct (users w !! i) as [u|] eqn:Hi;
    [|apply no_grant_refl].
  simpl. by apply (no_grant_insert _ _ u).
Qed.

Lemma _login_users (env : Env) (rq : Request) (login_id password : string)
    (w : World) :
  let us := sweep env (now rq) (users w) in
  let w' := fst (_login env rq login_id password w) in
  users w' = us
  \/ (cur_user rq w = None
      /\ str_in login_id (active_names false us) = true
      /\ exists i u, get_user_from login_id 0 us None = Some i
         /\ us !! i = Some u /\ username u = login_id
         /\ users w' = delete i us).
Proof.
  intros us. cbv zeta. rewrite _login_eq. cbv zeta. fold us.
  pose proof (cur_user_swept env rq w) as Hcur.
  destruct (self_conflict_rule_cases rq login_id (active_names false us)
              (swept env (now rq) w) (swept_names_sub env (now rq) false w))
    as [[_ ->]|[(_ & cu & _ & ->)|(Hin & Hnone & i & u & Hget & Hi & Hu & ->)]].
  - left. rewrite admission_rules_users; [done|]. apply sweep_idemp.
  - by left.
  - right. rewrite Hnone in Hcur.
    destruct (cur_user rq w); [done|]. split_and!; auto.
    exists i, u. split_and!; auto.
    rewrite admission_rules_users; [done|].
    simpl. fold us. rewrite sweep_delete. unfold us. by rewrite sweep_idemp.
Qed.

Lemma _login_registry (env : Env) (rq : Request) (login_id password : string)
    (w : World) :
  let us := sweep env (now rq) (users w) in
  let w' := fst (_login env rq login_id password w) in
  match cur_user rq w with
  | None =>
      if str_in login_id (active_names false us)
      then exists i u, get_user_from login_id 0 us None = Some i
             /\ us !! i = Some u /\ username u = login_id
             /\ users w' = delete i us
      else users w' = us
  | Some _ => users w' = us
  end.
Proof.
  intros us. cbv zeta. rewrite _login_eq. cbv zeta. fold us.
  pose proof (cur_user_swept env rq w) as Hcur.
  destruct (self_conflict_rule_cases rq login_id (active_names false us)
              (swept env (now rq) w) (swept_names_sub env (now rq) false w))
    as [[Hf ->]|[(_ & cu & Hcu & ->)|(Hin & Hnone & i & u & Hget & Hi & Hu & ->)]].
  - rewrite Hf.
    destruct (cur_user rq w);
      (rewrite admission_rules_users; [done|apply sweep_idemp]).
  - rewrite Hcu in Hcur. by destruct (cur_user rq w).
  - rewrite Hnone in Hcur. destruct (cur_user rq w); [done|]. rewrite Hin.
    exists i, u. split_and!; auto.
    rewrite admission_rules_users; [done|].
    simpl. fold us. rewrite sweep_delete. unfold us. by rewrite sweep_idemp.
Qed.

Lemma _login_raises_Exception (env : Env) (rq : Request)
    (login_id password : string) (w w' : World) (e : exn) :
  _login env rq login_id password w = (w', Raise e) -> exists msg, e = Exception msg.
Proof.
  rewrite _login_eq. cbv zeta.
  assert (forall w0 r names,
    admission_rules env rq login_id r names w0 = (w', Raise e) ->
    exists msg, e = Exception msg) as Hrules.
  { intros w0 r names. rewrite admission_rules_eq. cbv zeta.
    repeat match goal with
           | |- context [if ?c then _ else _] => destruct c
           end; intros [= _ <-]; eauto. }
  destruct (self_conflict_rule_cases rq login_id
              (active_names false (sweep env (now rq) (users w)))
              (swept env (now rq) w) (swept_names_sub env (now rq) false w))
    as [[_ ->]|[(_ & cu & _ & ->)|(_ & _ & i & u & _ & _ & _ & ->)]]; eauto.
  intros [= _ <-]. eauto.
Qed.

Lemma registry_ok_login (env : Env) (rq : Request) (login_id password : string)
    (w : World) :
  registry_ok (users w) ->
  registry_ok (users (fst (login env rq login_id password w))).
Proof.
  intros Hok.
  assert (registry_ok (users (fst (_login env rq login_id password w)))) as Hok1.
  { destruct (_login_users env rq login_id password w)
      as [->|(_ & _ & i & u & _ & _ & _ & ->)].
    - by apply registry_ok_sweep.
    - by apply registry_ok_delete, registry_ok_sweep. }
  destruct (_login env rq login_id password w) as [w1 [r|e]] eqn:Hl.
  - destruct (login_ok_spec env rq login_id password w w1 r Hl) as (w' & -> & H).
    by apply H.
  - by rewrite (login_raises _ _ _ _ _ _ _ Hl).
Qed.

Lemma registry_ok_force_signout (rq : Request) (name : string) (w : World) :
  registry_ok (users w) ->
  registry_ok (users (fst (force_signout_user rq name w))).
Proof.
  intros Hok. destruct (decide (name ∈ username <$> users w)) as [Hin|Hn].
  - destruct (force_signout_user_present rq name w Hin) as (i & u & _ & _ & _ & ->).
    destruct (negb (in_control u) || _); [by apply registry_ok_delete|done].
  - by rewrite force_signout_user_absent.
Qed.

Lemma registry_ok_step (env : Env) (w : World) (o : Op) :
  registry_ok (users w) -> registry_ok (users (step env w o)).
Proof.
  intros Hok. destruct o as [rq id pw|rq|rq name|rq|rq]; simpl.
  - by apply registry_ok_login.
  - eapply registry_ok_no_grant; [exact Hok|apply signout_no_grant].
  - by apply registry_ok_force_signout.
  - rewrite update_active_users_eq. by apply registry_ok_sweep.
  - eapply registry_ok_no_grant; [exact Hok|apply touch_no_grant].
Qed.

Lemma registry_ok_run (env : Env) (ops : list Op) (w : World) :
  registry_ok (users w) -> registry_ok (users (run env ops w)).
Proof.
  revert w. induction ops as [|o ops IH]; intros w Hok; [done|].
  simpl. by apply IH, registry_ok_step.
Qed.

(** ** Consequences of the specification of [update_operator] *)

Lemma flat_map_filter {A B} (p : A -> bool) (f : A -> list B) (l : list A) :
  (forall a, p a = false -> f a = []) ->
  flat_map f l = flat_map f (List.filter p l).
Proof.
  intros Hf. induction l as [|a l IH]; [done|]. simpl.
  destruct (p a) eqn:Hp; simpl; [by rewrite IH|by rewrite Hf, IH].
Qed.

Lemma after_update_operator_length (env : Env) (i : nat) (b flag : bool)
    (us1 : list User) (cu1 : User) :
  length (after_update_operator env i b flag us1 cu1) = length us1.
Proof.
  unfold after_update_operator. cbv zeta.
  destruct flag; by rewrite ?length_fmap, ?length_insert.
Qed.

Lemma after_update_operator_lookup (env : Env) (i j : nat) (b flag : bool)
    (us1 : list User) (cu1 u1 : User) :
  us1 !! i = Some cu1 -> us1 !! j = Some u1 ->
  let cu2 := if b then set_nickname "" cu1 else cu1 in
  let n := if negb (user_mode env) then get_proposal env cu2 else username cu2 in
  after_update_operator env i b flag us1 cu1 !! j
  = Some (if flag
          then (if decide (i = j) then cu2 else u1)
          else grant (username cu1)
                 (if decide (i = j) then set_nickname n cu2 else u1)).
Proof.
  intros Hi Hj. cbv zeta. unfold after_update_operator. cbv zeta.
  assert (i < length us1) as Hlt by (by eapply lookup_lt_Some).
  assert (username (if b then set_nickname "" cu1 else cu1) = username cu1)
    as Hn by (by destruct b).
  destruct flag.
  - destruct (decide (i = j)) as [->|Hne].
    + by rewrite list_lookup_insert_eq.
    + by rewrite list_lookup_insert_ne.
  - rewrite list_lookup_fmap, list_insert_insert_eq, Hn.
    destruct (decide (i = j)) as [->|Hne].
    + by rewrite list_lookup_insert_eq.
    + by rewrite list_lookup_insert_ne, Hj.
Qed.

Lemma split_hyphen_0_prefix (p s : string) :
  hyphen_free p = true -> split_hyphen_0 (p +:+ "-" +:+ s) = p.
Proof.
  induction p as [|c p IH]; simpl; [done|].
  intros [Hc Hp]%andb_true_iff. apply negb_true_iff in Hc. rewrite Hc.
  by rewrite IH.
Qed.




(** ** The loop of [set_operator] *)

Lemma grant_idemp (name : string) (u : User) :
  grant name (grant name u) = grant name u.
Proof. reflexivity. Qed.

Lemma get_user_from_ext (name : string) (us us' : list User) :
  forall k acc, username <$> us = username <$> us' ->
  get_user_from name k us acc = get_user_from name k us' acc.
Proof.
  revert us'. induction us as [|u us IH]; intros [|u' us'] k acc Heq;
    try done; rewrite !fmap_cons in Heq.
  injection Heq as Hu Hrest. simpl. rewrite Hu. by apply IH.
Qed.

Lemma str_in_cons (x a : string) (l : list string) :
  str_in x (a :: l) = String.eqb a x || str_in x l.
Proof. unfold str_in. simpl. by rewrite String.eqb_sym. Qed.

(** The loop of [set_operator] from position [k] on, names being unique. *)
Lemma set_operator_loop_NoDup (name : string) (n : nat) :
  forall k w acc, k + n = length (users w) -> NoDup (username <$> users w) ->
  set_operator_loop name (seq k n) acc w
  = (with_users
       ((if str_in name (username <$> drop k (users w))
         then grant name <$> take k (users w) else take k (users w))
        ++ (grant name <$> drop k (users w))) w,
     Ok (get_user_from name k (drop k (users w)) acc)).
Proof.
  induction n as [|n IH]; intros k w acc Hlen Hnd.
  - simpl. rewrite drop_ge by lia. simpl. rewrite app_nil_r, take_ge by lia.
    unfold with_users. by rewrite world_eta.
  - destruct (lookup_lt_is_Some_2 (users w) k) as [u Hu]; [lia|].
    simpl. rewrite bind_eq. unfold get_world. cbv beta iota. rewrite Hu.
    rewrite (drop_S _ _ _ Hu), !fmap_cons, str_in_cons. simpl get_user_from.
    destruct (String.eqb_spec (username u) name) as [Heq|Hne].
    + rewrite bind_eq, (db_set_in_control_true_eq k u w Hu), Heq.
      cbv beta iota. rewrite IH; simpl users.
      * rewrite <- !fmap_drop, <- !fmap_take, <- !list_fmap_compose.
        assert (grant name ∘ grant name = grant name) as -> by done.
        assert (username ∘ grant name = username) as -> by done.
        simpl orb. unfold with_users. simpl.
        assert (forall b : bool,
          (if b then grant name <$> take (S k) (users w)
           else grant name <$> take (S k) (users w))
          = grant name <$> take (S k) (users w)) as -> by (by intros []).
        rewrite (take_S_r _ _ _ Hu), fmap_app, <- app_assoc. simpl.
        f_equal. f_equal.
        apply get_user_from_ext. by rewrite <- list_fmap_compose.
      * rewrite length_fmap. lia.
      * by rewrite grant_usernames.
    + destruct (db_set_in_control_false_eq k u w Hu)
        as (j & uj & _ & Hj & _ & Hf & Hset).
      rewrite (find_user_from_NoDup _ _ _ Hnd Hu) in Hf. injection Hf as <-.
      assert (uj = u) as -> by congruence.
      rewrite bind_eq, Hset. cbv beta iota.
      assert (grant name u = set_in_control false u) as Hg.
      { unfold grant. by destruct (String.eqb_spec (username u) name). }
      assert (grant name (set_in_control false u) = set_in_control false u)
        as Hg'.
      { unfold grant. simpl. by destruct (String.eqb_spec (username u) name). }
      rewrite IH; simpl users.
      * rewrite drop_insert_lt by lia. rewrite take_insert_lt by lia.
        rewrite (take_S_r _ _ _ Hu), insert_app_r_alt by (rewrite length_take; lia).
        rewrite length_take, Nat.min_l by lia. rewrite Nat.sub_diag. simpl.
        rewrite fmap_app. simpl. rewrite Hg, Hg'.
        unfold with_users. simpl. f_equal. f_equal.
        destruct (str_in name (username <$> drop (S k) (users w)));
          by rewrite <- app_assoc.
      * rewrite length_insert. lia.
      * rewrite list_fmap_insert. simpl. rewrite list_insert_id; [done|].
        by rewrite list_lookup_fmap, Hu.
Qed.

Lemma set_operator_eq (name : string) (w : World) :
  NoDup (username <$> users w) ->
  set_operator name w
  = (with_users (grant name <$> users w) w,
     Ok (get_user_from name 0 (users w) None)).
Proof.
  intros Hnd. unfold set_operator. rewrite bind_eq, query_all_eq.
  cbv beta iota. rewrite (set_operator_loop_NoDup name _ 0 w None eq_refl Hnd).
  rewrite take_0, drop_0. by destruct (str_in name _).
Qed.

(** * The claims *)

(** C1 (as the code has it). When [_login] raises, [login] raises the same
    error and leaves the same datastore, and that datastore is known: for an
    anonymous requester whose [login_id] names an active session it is the
    swept datastore without that session, the last one stored under the name,
    and in every other case it is the swept datastore, in which the sessions
    whose lifetime expired are inactive and nothing else differs.  So the
    datastore is the one before the attempt exactly when no session had
    expired and the first rule did not evict. *)
Theorem failed_login_effect (env : Env) (rq : Request)
    (login_id password : string) (w w' : World) (e : exn) :
  _login env rq login_id password w = (w', Raise e) ->
  let us := sweep env (now rq) (users w) in
  login env rq login_id password w = (w', Raise e)
  /\ match cur_user rq w with
     | None =>
         if str_in login_id (active_names false us)
         then exists i u, get_user_from login_id 0 us None = Some i
                /\ us !! i = Some u /\ username u = login_id
                /\ users w' = delete i us
         else users w' = us
     | Some _ => users w' = us
     end
  /\ (users w' = users w
      <-> us = users w
          /\ (cur_user rq w <> None
              \/ str_in login_id (active_names false us) = false)).
Proof.
  intros Hl us.
  pose proof (_login_registry env rq login_id password w) as Hreg.
  cbv zeta in Hreg. rewrite Hl in Hreg. simpl fst in Hreg. fold us in Hreg.
  split; [by apply login_raises|]. split; [exact Hreg|].
  assert (length us = length (users w)) as Hlen
    by (unfold us, sweep; by rewrite length_fmap).
  destruct (cur_user rq w) as [cu|].
  { rewrite Hreg. split; [intros <-; auto|by intros [-> _]]. }
  destruct (str_in login_id (active_names false us)).
  - destruct Hreg as (i & u & _ & Hi & _ & Hdel). split.
    + intros Heq. apply lookup_lt_Some in Hi.
      assert (length (users w') = length (users w)) as Hlen' by (by rewrite Heq).
      rewrite Hdel, length_delete in Hlen' by (by apply lookup_lt_is_Some_2).
      lia.
    + intros [_ [?|?]]; done.
  - rewrite Hreg. split; [intros <-; auto|by intros [-> _]].
Qed.

(** The theorem at an anonymous login under the name of the only active
    session, with a wrong password: the session is gone. *)
Lemma failed_login_effect_witness :
  login env_user (anon_request true 1 "u2") "alice" "bad" world_alice
  = (fst (_login env_user (anon_request true 1 "u2") "alice" "bad" world_alice),
     Raise (Exception
       "{'valid': False, 'local': True, 'existing_session': True, 'inhouse': False}"))
  /\ users (fst (_login env_user (anon_request true 1 "u2") "alice" "bad"
                   world_alice)) = delete 0 [alice].
Proof.
  destruct (failed_login_effect env_user (anon_request true 1 "u2") "alice" "bad"
              world_alice _ _ eq_refl) as (Hlogin & Hreg & _).
  split; [exact Hlogin|].
  destruct Hreg as (i & u & Hget & _ & _ & Hdel).
  injection Hget as <-. exact Hdel.
Defined.

(** C1, the claim as stated fails: a rejected login deactivates a session
    whose lifetime expired, and a rejected anonymous login under the name of
    an active session deletes that session. *)
Lemma failed_login_changes_sessions_counterexample :
  (snd (login env_user (anon_request true 200 "u2") "bob" "bad" world_alice)
   = Raise (Exception
       "{'valid': False, 'local': True, 'existing_session': True, 'inhouse': False}")
   /\ users (fst (login env_user (anon_request true 200 "u2") "bob" "bad" world_alice))
      = [set_active false alice])
  /\ (snd (login env_user (anon_request true 1 "u2") "alice" "bad" world_alice)
      = Raise (Exception
          "{'valid': False, 'local': True, 'existing_session': True, 'inhouse': False}")
      /\ users (fst (login env_user (anon_request true 1 "u2") "alice" "bad" world_alice))
         = []
      /\ users world_alice = [alice]).
Proof. repeat split. Qed.

(** C2. Starting from the empty datastore, after any sequence of logins,
    signouts, forced signouts, sweeps and activity updates, whether each of
    them returned or raised, at most one user is active, authenticated and in
    control. *)
Theorem one_operator_at_most (env : Env) (ops : list Op) :
  length (controlling env (users (run env ops empty_world))) <= 1.
Proof.
  assert (registry_ok (users (run env ops empty_world))) as [_ Hc].
  { apply registry_ok_run. split; [constructor|simpl; lia]. }
  pose proof (controlling_count env (users (run env ops empty_world))). lia.
Qed.

(** C3 (as the code has it). One call of [update_active_users] returns
    normally, keeps every position, sets inactive each user that is active
    with a [last_request_timestamp] older than the session lifetime, leaves
    every other user as it was and changes no [in_control] flag: it promotes
    nobody and it does not clear the flag of an operator it deactivates. *)
Theorem sweep_effect (env : Env) (rq : Request) (w : World) :
  exists w',
    update_active_users env rq w = (w', Ok tt)
    /\ length (users w') = length (users w)
    /\ forall i u, users w !! i = Some u ->
       exists u', users w' !! i = Some u'
         /\ in_control u' = in_control u
         /\ u' = (if timed_out env (now rq) u then set_active false u else u).
Proof.
  exists (swept env (now rq) w). rewrite update_active_users_eq.
  split; [done|]. simpl. unfold sweep. split; [by rewrite length_fmap|].
  intros i u Hi. exists (expire env (now rq) u).
  rewrite list_lookup_fmap, Hi. split_and!; auto using expire_in_control.
Qed.

(** C3, the claim as stated fails: the sweep leaves an operator it
    deactivates with [in_control = true]. *)
Lemma sweep_keeps_in_control_counterexample :
  users (fst (update_active_users env_user (anon_request true 200 "u") world_alice))
  = [set_active false alice]
  /\ active (set_active false alice) = false
  /\ in_control (set_active false alice) = true.
Proof. repeat split. Qed.

(** C4 (as the code has it). On a datastore with unique names,
    [update_operator(new_login=True)] run by the user who has just logged in
    returns normally and keeps every user in place.  If no authenticated user
    was in control, the new user is the only one in control afterwards.  If
    some were, control is granted to nobody and the users in control
    afterwards are exactly those that were authenticated and in control
    before: one such user stays the single operator, several all stay. *)
Theorem update_operator_on_login (env : Env) (rq : Request) (w : World)
    (i : nat) (cu : User) :
  current_user rq = Some i -> users w !! i = Some cu ->
  NoDup (username <$> users w) ->
  exists w',
    update_operator env rq true w = (w', Ok tt)
    /\ length (users w') = length (users w)
    /\ forall j u, users w !! j = Some u ->
       exists u', users w' !! j = Some u'
         /\ username u' = username u
         /\ in_control u'
            = if existsb (is_controlling env) (users w)
              then is_controlling env u else bool_decide (j = i).
Proof.
  intros Hc Hi Hnd.
  destruct (update_operator_spec env rq true w i cu Hc Hi)
    as (us1 & cu1 & _ & Hi1 & _ & Hus1 & Heq).
  specialize (Hus1 Hnd). subst us1.
  eexists. split; [exact Heq|]. cbv zeta. simpl users.
  split; [by rewrite after_update_operator_length, length_fmap|].
  intros j u Hj.
  assert ((demote env <$> users w) !! j = Some (demote env u)) as Hj1
    by (by rewrite list_lookup_fmap, Hj).
  rewrite list_lookup_fmap, Hi in Hi1. injection Hi1 as <-.
  assert ((demote env <$> users w) !! i = Some (demote env cu)) as Hi1
    by (by rewrite list_lookup_fmap, Hi).
  pose proof (after_update_operator_lookup env i j true
                (existsb (is_controlling env) (users w)) _ _ _ Hi1 Hj1) as Hlk.
  cbv zeta in Hlk. eexists. split; [exact Hlk|].
  assert (forall v, username (demote env v) = username v
                    /\ in_control (demote env v) = is_controlling env v) as Hdem.
  { intros v. unfold demote. destruct (is_controlling env v) eqn:Hv; [|done].
    split; [done|]. unfold is_controlling in Hv. by apply andb_true_iff in Hv as [_ ?]. }
  destruct (Hdem u) as [Hnu Hcu], (Hdem cu) as [Hncu Hccu].
  destruct (existsb (is_controlling env) (users w)).
  - destruct (decide (i = j)) as [->|Hne]; [|done].
    assert (u = cu) as -> by congruence. done.
  - destruct (decide (i = j)) as [->|Hne].
    + assert (u = cu) as -> by congruence.
      rewrite bool_decide_true by done. unfold grant. simpl.
      rewrite Hncu. split; [done|]. apply String.eqb_refl.
    + rewrite bool_decide_false by congruence. unfold grant. simpl.
      rewrite Hnu, Hncu. split; [done|].
      apply String.eqb_neq. intros Hsame. apply Hne. symmetry.
      eapply NoDup_lookup; [exact Hnd| |].
      * by rewrite list_lookup_fmap, Hj.
      * rewrite list_lookup_fmap, Hi. simpl. by rewrite Hsame.
Qed.

(** The theorem at a second session logging in while 12345 is in control,
    names being unique. *)
Lemma update_operator_on_login_witness :
  current_user (user_request 1 true 1 "u") = Some 1
  /\ users world_mixed !! 1 = Some session_67890
  /\ NoDup (username <$> users world_mixed)
  /\ exists w',
       update_operator env_proposal (user_request 1 true 1 "u") true world_mixed
       = (w', Ok tt)
       /\ length (users w') = 2.
Proof.
  assert (NoDup (username <$> users world_mixed)) as Hnd.
  { apply (bool_decide_unpack _). vm_compute. exact I. }
  split; [reflexivity|]. split; [reflexivity|]. split; [exact Hnd|].
  destruct (update_operator_on_login env_proposal (user_request 1 true 1 "u")
              world_mixed 1 session_67890 eq_refl eq_refl Hnd)
    as (w' & Hup & Hlen & _).
  exists w'. split; [exact Hup|exact Hlen].
Defined.

(** C4, the claim as stated fails: a login on a datastore with two
    authenticated users in control leaves both in control. *)
Lemma two_operators_survive_login_counterexample :
  snd (login env_user (anon_request true 1 "u3") "carol" "ok" world_two_operators)
  = Ok tt
  /\ username <$>
       List.filter (fun u => active u && in_control u)
         (users (fst (login env_user (anon_request true 1 "u3") "carol" "ok"
                        world_two_operators)))
     = ["alice"; "bob"].
Proof. split; reflexivity. Qed.

(** C5. [update_operator] run by a logged-in user returns normally, and what
    it hands to [select_proposal] is read off the users that are
    authenticated and in control when it ends.  When [op] is the one such
    user: outside the "user" login mode, the proposal derived from [op]; in
    the "user" mode, the [selected_proposal] stored for [op] if there is one
    (an empty string counts as none), and nothing otherwise. *)
Theorem proposal_of_operator (env : Env) (rq : Request) (new_login : bool)
    (w : World) (i : nat) (cu : User) :
  current_user rq = Some i -> users w !! i = Some cu ->
  exists w',
    update_operator env rq new_login w = (w', Ok tt)
    /\ selected w' = selected w ++ flat_map (proposals_of env) (users w')
    /\ forall op, List.filter (is_controlling env) (users w') = [op] ->
       selected w'
       = selected w ++
         (if negb (user_mode env) then [get_proposal env op]
          else match selected_proposal op with
               | Some p => if String.eqb p "" then [] else [p]
               | None => []
               end).
Proof.
  intros Hc Hi.
  destruct (update_operator_spec env rq new_login w i cu Hc Hi)
    as (us1 & cu1 & _ & _ & _ & _ & Heq).
  eexists. split; [exact Heq|]. cbv zeta. simpl. split; [done|].
  intros op Hop. f_equal.
  rewrite (flat_map_filter (is_controlling env) (proposals_of env)), Hop.
  - simpl. rewrite app_nil_r. unfold proposals_of.
    assert (is_controlling env op = true) as ->; [|done].
    assert (op ∈ List.filter (is_controlling env)
                   (after_update_operator env i new_login
                      (existsb (is_controlling env) (users w)) us1 cu1)) as Hin
      by (rewrite Hop; by left).
    by apply list_elem_of_In, filter_In in Hin as [_ ?].
  - intros u Hu. unfold proposals_of. by rewrite Hu.
Qed.

(** The theorem at the operator of proposal 12345 re-evaluating control. *)
Lemma proposal_of_operator_witness :
  current_user (user_request 0 true 1 "u") = Some 0
  /\ users world_12345 !! 0 = Some session_12345
  /\ exists w',
       update_operator env_proposal (user_request 0 true 1 "u") false world_12345
       = (w', Ok tt)
       /\ selected w' = selected world_12345 ++ ["12345"].
Proof.
  split; [reflexivity|]. split; [reflexivity|].
  destruct (proposal_of_operator env_proposal (user_request 0 true 1 "u") false
              world_12345 0 session_12345 eq_refl eq_refl) as (w' & Hup & _ & Hsel).
  exists w'. split; [exact Hup|].
  assert (w' = fst (update_operator env_proposal (user_request 0 true 1 "u")
                      false world_12345)) as Hw by (by rewrite Hup).
  rewrite (Hsel session_12345); [reflexivity|]. rewrite Hw. reflexivity.
Defined.




(** C7. When [login_id] is the name of an active session (as
    [active_logged_in_users] returns them), the first rule decides before any
    other: an anonymous requester has that session deleted and the remaining
    rules then run on the datastore without it; a requester logged in under
    that name gets "You are already logged in"; a requester logged in under
    another name gets the "logged in somewhere else" rejection. *)
Theorem self_conflict_outcomes (env : Env) (rq : Request)
    (login_id password : string) (w : World) :
  let us := sweep env (now rq) (users w) in
  let names := active_names false us in
  str_in login_id names = true ->
  match cur_user rq w with
  | None =>
      exists i u,
        get_user_from login_id 0 us None = Some i
        /\ us !! i = Some u /\ username u = login_id
        /\ (NoDup (username <$> users w) ->
            active u = true /\ login_id ∉ username <$> delete i us)
        /\ _login env rq login_id password w
           = admission_rules env rq login_id (lims_login env login_id password)
               names (evicted i u (swept env (now rq) w))
  | Some cu =>
      let msg := if String.eqb (username cu) login_id
                 then msg_already_logged_in else msg_logged_in_elsewhere in
      _login env rq login_id password w
      = (swept env (now rq) w, Raise (Exception msg))
      /\ login env rq login_id password w
         = (swept env (now rq) w, Raise (Exception msg))
  end.
Proof.
  intros us names Hin.
  pose proof (cur_user_swept env rq w) as Hcur.
  pose proof (_login_eq env rq login_id password w) as Hl. cbv zeta in Hl.
  fold us names in Hl.
  destruct (self_conflict_rule_cases rq login_id names (swept env (now rq) w)
              (swept_names_sub env (now rq) false w))
    as [[Hf _]|[(_ & cu' & Hcu' & Hr)|(_ & Hnone & i & u & Hget & Hi & Hu & Hr)]].
  - congruence.
  - rewrite Hr in Hl. rewrite Hcu' in Hcur.
    destruct (cur_user rq w) as [cu|]; [|done].
    simpl in Hcur. injection Hcur as ->. rewrite expire_username in Hl.
    cbv zeta. split; [done|]. by apply login_raises.
  - rewrite Hr in Hl. rewrite Hnone in Hcur.
    destruct (cur_user rq w) as [cu|]; [done|].
    change (us !! i = Some u) in Hi.
    exists i, u. split_and!; auto.
    intros Hnd. rewrite <- (sweep_usernames env (now rq)) in Hnd. fold us in Hnd.
    apply str_in_true, active_names_elem in Hin as (v & Hv & Hvn & Hact).
    apply list_elem_of_lookup in Hv as [j Hj].
    assert (j = i) as ->.
    { eapply NoDup_lookup; [exact Hnd| |].
      - by rewrite list_lookup_fmap, Hj.
      - rewrite list_lookup_fmap, Hi. simpl. congruence. }
    assert (v = u) as -> by congruence. split; [done|].
    rewrite fmap_delete_list. apply NoDup_delete_lookup; [done|].
    by rewrite list_lookup_fmap, Hj, <- Hu.
Qed.

(** The theorem at an anonymous login as alice while alice is active. *)
Lemma self_conflict_outcomes_witness :
  str_in "alice"
    (active_names false (sweep env_user 1 (users world_alice))) = true
  /\ exists i u,
       get_user_from "alice" 0 (sweep env_user 1 (users world_alice)) None = Some i
       /\ sweep env_user 1 (users world_alice) !! i = Some u.
Proof.
  split; [reflexivity|].
  destruct (self_conflict_outcomes env_user (anon_request true 1 "u2")
              "alice" "ok" world_alice eq_refl) as (i & u & H1 & H2 & _).
  exists i, u. split; [exact H1|exact H2].
Defined.

(** C8. A login with an in-house [login_id] from a host that is not the local
    one is rejected whatever the datastore, the login mode and the flags are:
    [_login] raises, and so does [login]. *)
Theorem inhouse_remote_rejected (env : Env) (rq : Request)
    (login_id password : string) (w : World) :
  is_inhouse_user env login_id = true -> local_host rq = false ->
  exists w' msg,
    _login env rq login_id password w = (w', Raise (Exception msg))
    /\ login env rq login_id password w = (w', Raise (Exception msg))
    /\ (msg = msg_inhouse_local \/ msg = msg_already_logged_in
        \/ msg = msg_logged_in_elsewhere).
Proof.
  intros Hin Hloc.
  assert (forall w0 r names,
    admission_rules env rq login_id r names w0
    = (w0, Raise (Exception msg_inhouse_local))) as Hrule.
  { intros. rewrite admission_rules_eq. cbv zeta. by rewrite Hin, Hloc. }
  assert (exists w' msg,
    _login env rq login_id password w = (w', Raise (Exception msg))
    /\ (msg = msg_inhouse_local \/ msg = msg_already_logged_in
        \/ msg = msg_logged_in_elsewhere)) as (w' & msg & Hl & Hmsg).
  { rewrite _login_eq. cbv zeta.
    destruct (self_conflict_rule_cases rq login_id
                (active_names false (sweep env (now rq) (users w)))
                (swept env (now rq) w) (swept_names_sub env (now rq) false w))
      as [[_ ->]|[(_ & cu & _ & ->)|(_ & _ & i & u & _ & _ & _ & ->)]].
    - rewrite Hrule. eauto.
    - eexists _, _. split; [done|].
      destruct (String.eqb (username cu) login_id); auto.
    - rewrite Hrule. eauto. }
  exists w', msg. split_and!; auto. by apply login_raises.
Qed.

(** The theorem at an anonymous remote login of the in-house user fx1. *)
Lemma inhouse_remote_rejected_witness :
  is_inhouse_user env_proposal "fx1" = true
  /\ local_host (anon_request false 1 "u2") = false
  /\ exists w' msg,
       _login env_proposal (anon_request false 1 "u2") "fx1" "ok" empty_world
       = (w', Raise (Exception msg)).
Proof.
  split; [reflexivity|]. split; [reflexivity|].
  destruct (inhouse_remote_rejected env_proposal (anon_request false 1 "u2")
              "fx1" "ok" empty_world eq_refl eq_refl) as (w' & msg & H & _).
  exists w', msg. exact H.
Defined.

(** C9 (as the code has it). [update_operator] run by the logged-in user at
    position [i] returns normally.  If an authenticated user was in control,
    the current user is not promoted; on a new login its nickname is the
    empty string, in every login mode, when it is not itself in control and
    authenticated, and without a new login its nickname stays.  If none was,
    the current user is put in control and its nickname is the proposal
    derived from it outside the "user" login mode, its username in that mode,
    whatever the nickname was before.  [set_operator] on the name of a user
    puts that user in control and changes no nickname. *)
Theorem nickname_on_update (env : Env) (rq : Request) (new_login : bool)
    (w : World) (i : nat) (cu : User) :
  current_user rq = Some i -> users w !! i = Some cu ->
  (exists w' cu',
     update_operator env rq new_login w = (w', Ok tt)
     /\ users w' !! i = Some cu'
     /\ username cu' = username cu
     /\ if existsb (is_controlling env) (users w)
        then (in_control cu' = true -> in_control cu = true)
             /\ if new_login
                then is_controlling env cu = false -> nickname cu' = ""
                else nickname cu' = nickname cu
        else in_control cu' = true
             /\ exists b,
                  nickname cu'
                  = if negb (user_mode env)
                    then get_proposal env
                           (set_in_control b
                              (if new_login then set_nickname "" cu else cu))
                    else username cu)
  /\ (NoDup (username <$> users w) ->
      exists w2 r,
        set_operator (username cu) w = (w2, Ok r)
        /\ users w2 !! i = Some (set_in_control true cu)
        /\ nickname <$> users w2 = nickname <$> users w).
Proof.
  intros Hc Hi. split.
  - destruct (update_operator_spec env rq new_login w i cu Hc Hi)
      as (us1 & cu1 & _ & Hi1 & Hcu1 & _ & Heq).
    pose proof (after_update_operator_lookup env i i new_login
                  (existsb (is_controlling env) (users w)) us1 cu1 cu1 Hi1 Hi1)
      as Hlk.
    cbv zeta in Hlk. rewrite decide_True in Hlk by done.
    eexists _, _. split; [exact Heq|]. cbv zeta. simpl users.
    split; [exact Hlk|].
    assert (exists b, cu1 = set_in_control b cu /\ (b = true -> in_control cu = true))
      as (b & -> & Hb).
    { destruct Hcu1 as [->| ->];
        [exists (in_control cu); by destruct cu|by exists false]. }
    destruct (existsb (is_controlling env) (users w)).
    + split; [by destruct new_login|]. split; [by destruct new_login|].
      by destruct new_login.
    + rewrite !decide_True by done. split; [by destruct new_login|].
      split; [simpl; by destruct new_login; simpl; rewrite String.eqb_refl|].
      exists b. unfold grant. simpl. by destruct new_login.
  - intros Hnd. eexists _, _. split; [by apply set_operator_eq|].
    simpl users. split.
    + rewrite list_lookup_fmap, Hi. simpl. unfold grant.
      by rewrite String.eqb_refl.
    + rewrite <- list_fmap_compose. by apply list_fmap_ext.
Qed.

(** The theorem at a second session logging in while 12345 is in control,
    and at control handed to that session afterwards. *)
Lemma nickname_on_update_witness :
  current_user (user_request 1 true 1 "u") = Some 1
  /\ users world_mixed !! 1 = Some session_67890
  /\ (exists w' cu',
        update_operator env_proposal (user_request 1 true 1 "u") true world_mixed
        = (w', Ok tt)
        /\ users w' !! 1 = Some cu' /\ nickname cu' = "")
  /\ NoDup (username <$> users world_mixed)
  /\ exists w2 r,
       set_operator "67890-u2" world_mixed = (w2, Ok r)
       /\ users w2 !! 1 = Some (set_in_control true session_67890).
Proof.
  split; [reflexivity|]. split; [reflexivity|].
  destruct (nickname_on_update env_proposal (user_request 1 true 1 "u") true
              world_mixed 1 session_67890 eq_refl eq_refl)
    as [(w' & cu' & Hup & Hlk & _ & _ & Hnick) Hset].
  split; [exists w', cu'; split; [exact Hup|]; split; [exact Hlk|];
          exact (Hnick eq_refl)|].
  assert (NoDup (username <$> users world_mixed)) as Hnd.
  { apply (bool_decide_unpack _). vm_compute. exact I. }
  split; [exact Hnd|].
  destruct (Hset Hnd) as (w2 & r & H & Hlk2 & _).
  exists w2, r. split; [exact H|exact Hlk2].
Defined.

(** C9, the claim as stated fails.  Outside the "user" mode, [set_operator]
    puts the observer 67890, which has no nickname, in control and leaves
    its nickname empty, although its proposal is 67890.  In the "user" mode,
    alice, who is in control and whose session is inactive, logs in again:
    she is the active operator afterwards, and her nickname is empty, not
    her username. *)
Lemma promotion_without_nickname_counterexample :
  (user_mode env_proposal = false
   /\ nickname session_67890 = ""
   /\ in_control session_67890 = false
   /\ get_proposal env_proposal session_67890 = "67890"
   /\ snd (set_operator "67890-u2" world_mixed) = Ok (Some 1)
   /\ controlling env_proposal (users (fst (set_operator "67890-u2" world_mixed)))
      = [set_in_control true session_67890])
  /\ (user_mode env_user = true
      /\ controlling env_user (users world_alice_away) = []
      /\ snd (login env_user (anon_request true 1 "u") "alice" "ok"
                world_alice_away) = Ok tt
      /\ controlling env_user
           (users (fst (login env_user (anon_request true 1 "u") "alice" "ok"
                          world_alice_away)))
         = [set_nickname "" alice]).
Proof. split_and!; reflexivity. Qed.

(** C10. [force_signout_user(username)] returns only when some user has that
    name: it then returns normally; when no user has it, [get_user] returns
    [None] and the call raises [AttributeError] at [user.in_control], with the
    datastore untouched. *)
Theorem force_signout_user_needs_user (rq : Request) (name : string) (w : World) :
  if str_in name (username <$> users w)
  then exists w', force_signout_user rq name w = (w', Ok tt)
  else get_user name w = (w, Ok None)
       /\ force_signout_user rq name w
          = (w, Raise (AttributeError msg_none_in_control)).
Proof.
  destruct (str_in name (username <$> users w)) eqn:Hin.
  - apply str_in_true in Hin.
    destruct (force_signout_user_present rq name w Hin) as (i & u & _ & _ & _ & ->).
    destruct (negb (in_control u) || _); eauto.
  - apply str_in_false in Hin. split.
    + unfold get_user. rewrite bind_eq. simpl. by rewrite get_user_from_absent.
    + by apply force_signout_user_absent.
Qed.

(** * Further properties of the code *)

(** ** Admission *)

Lemma cur_user_None_shorter (rq : Request) (w w' : World) :
  cur_user rq w = None -> length (users w') <= length (users w) ->
  cur_user rq w' = None.
Proof.
  unfold cur_user. destruct (current_user rq) as [i|]; [|done].
  intros Hn Hlen. apply lookup_ge_None in Hn. apply lookup_ge_None. lia.
Qed.

Lemma length_sweep (env : Env) (t : Z) (us : list User) :
  length (sweep env t us) = length us.
Proof. unfold sweep. by rewrite length_fmap. Qed.

(** [_login] either stops at the first rule or runs the other rules on the
    swept datastore, from which the first rule may have deleted a user. *)
Lemma _login_cases (env : Env) (rq : Request) (login_id password : string)
    (w : World) :
  let names := active_names false (sweep env (now rq) (users w)) in
  (exists cu, cur_user rq w = Some cu
     /\ str_in login_id names = true
     /\ _login env rq login_id password w
        = (swept env (now rq) w,
           Raise (Exception (if String.eqb (username cu) login_id
                             then msg_already_logged_in
                             else msg_logged_in_elsewhere))))
  \/ (exists w2,
        length (users w2) <= length (users w)
        /\ (cur_user rq w = None \/ str_in login_id names = false)
        /\ (cur_user rq w2 = expire env (now rq) <$> cur_user rq w)
        /\ _login env rq login_id password w
           = admission_rules env rq login_id (lims_login env login_id password)
               names w2).
Proof.
  intros names. rewrite _login_eq. cbv zeta. fold names.
  pose proof (cur_user_swept env rq w) as Hcur.
  destruct (self_conflict_rule_cases rq login_id names (swept env (now rq) w)
              (swept_names_sub env (now rq) false w))
    as [[Hf ->]|[(Ht & cu' & Hcu' & ->)|(Ht & Hnone & i & u & _ & Hi & _ & ->)]].
  - right. exists (swept env (now rq) w). split_and!; auto.
    simpl. by rewrite length_sweep.
  - left. rewrite Hcu' in Hcur. destruct (cur_user rq w) as [cu|]; [|done].
    simpl in Hcur. injection Hcur as ->. exists cu.
    by rewrite expire_username.
  - right. rewrite Hnone in Hcur. destruct (cur_user rq w) eqn:Hw; [done|].
    exists (evicted i u (swept env (now rq) w)). split_and!; auto.
    + simpl. rewrite length_delete by (simpl in Hi; eauto).
      rewrite length_sweep. lia.
    + simpl. eapply cur_user_None_shorter; [exact Hnone|].
      simpl. rewrite length_delete by (simpl in Hi; eauto). lia.
Qed.

Lemma _login_rejected_by_rules (env : Env) (rq : Request)
    (login_id password : string) (w : World) :
  (forall w0 names, exists w' msg,
     admission_rules env rq login_id (lims_login env login_id password) names w0
     = (w', Raise (Exception msg))) ->
  exists w' msg,
    _login env rq login_id password w = (w', Raise (Exception msg))
    /\ login env rq login_id password w = (w', Raise (Exception msg)).
Proof.
  intros Hrules.
  assert (exists w' msg,
    _login env rq login_id password w = (w', Raise (Exception msg)))
    as (w' & msg & Hl).
  { destruct (_login_cases env rq login_id password w)
      as [(cu & _ & _ & ->)|(w2 & _ & _ & _ & ->)]; eauto. }
  exists w', msg. split; [done|]. by apply login_raises.
Qed.

(** X1. Credentials the LIMS does not accept are never admitted: whatever
    the datastore, the requester and the configuration, [_login] and [login]
    raise. *)
Theorem invalid_credentials_rejected (env : Env) (rq : Request)
    (login_id password : string) (w : World) :
  lims_valid_login env (lims_login env login_id password) = false ->
  exists w' msg,
    _login env rq login_id password w = (w', Raise (Exception msg))
    /\ login env rq login_id password w = (w', Raise (Exception msg)).
Proof.
  intros Hv. apply _login_rejected_by_rules. intros w0 names.
  rewrite admission_rules_eq. cbv zeta. rewrite Hv.
  repeat match goal with
         | |- context [if ?c then _ else _] => destruct c
         end; eauto.
Qed.

(** The theorem at a wrong password on the empty datastore. *)
Lemma invalid_credentials_rejected_witness :
  lims_valid_login env_user (lims_login env_user "bob" "bad") = false
  /\ exists w' msg,
       login env_user (anon_request true 1 "u") "bob" "bad" empty_world
       = (w', Raise (Exception msg)).
Proof.
  split; [reflexivity|].
  destruct (invalid_credentials_rejected env_user (anon_request true 1 "u")
              "bob" "bad" empty_world eq_refl) as (w' & msg & _ & H).
  exists w', msg. exact H.
Defined.

(** X2. With [ALLOW_REMOTE] off, a login from a host that is not the local
    one is rejected, valid credentials or not. *)
Theorem remote_disabled_rejected (env : Env) (rq : Request)
    (login_id password : string) (w : World) :
  ALLOW_REMOTE env = false -> local_host rq = false ->
  exists w' msg,
    _login env rq login_id password w = (w', Raise (Exception msg))
    /\ login env rq login_id password w = (w', Raise (Exception msg)).
Proof.
  intros Ha Hl. apply _login_rejected_by_rules. intros w0 names.
  rewrite admission_rules_eq. cbv zeta. rewrite Ha, Hl. cbn [negb andb].
  repeat match goal with
         | |- context [if ?c then _ else _] => destruct c
         end; eauto.
Qed.

(** The theorem at a remote login with a good password. *)
Lemma remote_disabled_rejected_witness :
  ALLOW_REMOTE (env_of "user" [] false) = false
  /\ local_host (anon_request false 1 "u") = false
  /\ exists w' msg,
       login (env_of "user" [] false) (anon_request false 1 "u") "bob" "ok"
         empty_world
       = (w', Raise (Exception msg)).
Proof.
  split; [reflexivity|]. split; [reflexivity|].
  destruct (remote_disabled_rejected (env_of "user" [] false)
              (anon_request false 1 "u") "bob" "ok" empty_world eq_refl eq_refl)
    as (w' & msg & _ & H).
  exists w', msg. exact H.
Defined.

Lemma user_mode_anonymous_admitted_aux (env : Env) (rq : Request)
    (login_id password : string) (w : World) :
  user_mode env = true -> cur_user rq w = None ->
  lims_valid_login env (lims_login env login_id password) = true ->
  local_host rq = true
  \/ (ALLOW_REMOTE env = true /\ is_inhouse_user env login_id = false) ->
  exists w1 r, _login env rq login_id password w = (w1, Ok r).
Proof.
  intros Hmode Hanon Hvalid Horigin.
  destruct (_login_cases env rq login_id password w)
    as [(cu & Hcu & _)|(w2 & Hlen & _ & Hcur & ->)]; [congruence|].
  rewrite admission_rules_eq. cbv zeta.
  rewrite Hmode, Hvalid, cur_user_swept, Hcur, Hanon. simpl.
  rewrite !andb_false_r.
  destruct Horigin as [->|[-> ->]];
    destruct (is_inhouse_user env login_id); simpl;
    rewrite ?andb_false_r, ?andb_true_r, ?negb_involutive;
    repeat match goal with
           | |- context [if ?c then _ else _] => destruct c eqn:?
           end; try discriminate; eauto.
Qed.

(** X3. In the "user" login mode an anonymous requester is not held back by
    the sessions of other users: with accepted credentials, from the local
    host, or from elsewhere if remote access is on and the id is not
    in-house, [_login] returns, whoever is logged in.  [login] then
    completes when every role configured for [login_id] is in the role
    table, and raises [FlushError] when one is not. *)
Theorem user_mode_anonymous_admitted (env : Env) (rq : Request)
    (login_id password : string) (w : World) :
  user_mode env = true -> cur_user rq w = None ->
  lims_valid_login env (lims_login env login_id password) = true ->
  local_host rq = true
  \/ (ALLOW_REMOTE env = true /\ is_inhouse_user env login_id = false) ->
  (exists w1 r, _login env rq login_id password w = (w1, Ok r))
  /\ exists w', login env rq login_id password w
                = (w', if roles_storable env login_id then Ok tt
                       else Raise (FlushError msg_flush)).
Proof.
  intros Hmode Hanon Hvalid Horigin.
  destruct (user_mode_anonymous_admitted_aux env rq login_id password w
              Hmode Hanon Hvalid Horigin) as (w1 & r & Hl).
  split; [eauto|].
  destruct (login_ok_spec env rq login_id password w w1 r Hl) as (w' & H & _).
  eauto.
Qed.

(** The theorem at an anonymous login as bob while alice is the operator. *)
Lemma user_mode_anonymous_admitted_witness :
  user_mode env_user = true
  /\ cur_user (anon_request true 1 "u") world_alice = None
  /\ lims_valid_login env_user (lims_login env_user "bob" "ok") = true
  /\ exists w', login env_user (anon_request true 1 "u") "bob" "ok" world_alice
                = (w', Ok tt).
Proof.
  split; [reflexivity|]. split; [reflexivity|]. split; [reflexivity|].
  exact (proj2 (user_mode_anonymous_admitted env_user (anon_request true 1 "u")
                  "bob" "ok" world_alice eq_refl eq_refl eq_refl
                  (or_introl eq_refl))).
Defined.

(** X4. In the "user" login mode a requester who is logged in cannot log in
    under another name while some session is active: the attempt raises, with
    one of the three messages of the rules it can stop at. *)
Theorem user_mode_second_identity_rejected (env : Env) (rq : Request)
    (login_id password : string) (w : World) (cu : User) :
  user_mode env = true -> cur_user rq w = Some cu ->
  username cu <> login_id ->
  active_names false (sweep env (now rq) (users w)) <> [] ->
  exists w' msg,
    login env rq login_id password w = (w', Raise (Exception msg))
    /\ (msg = msg_logged_in_elsewhere \/ msg = msg_inhouse_local
        \/ msg = msg_another_user).
Proof.
  intros Hmode Hcu Hne Hact.
  assert (exists w' msg,
    _login env rq login_id password w = (w', Raise (Exception msg))
    /\ (msg = msg_logged_in_elsewhere \/ msg = msg_inhouse_local
        \/ msg = msg_another_user)) as (w' & msg & Hl & Hmsg).
  { destruct (_login_cases env rq login_id password w)
      as [(cu' & Hcu' & _ & ->)|(w2 & _ & _ & Hcur & ->)].
    - assert (cu' = cu) as -> by congruence.
      apply String.eqb_neq in Hne. rewrite Hne.
      eexists _, _; (split; [reflexivity|auto]).
    - rewrite admission_rules_eq. cbv zeta.
      rewrite Hmode, cur_user_swept, Hcur, Hcu. simpl.
      rewrite !expire_username. apply String.eqb_neq in Hne. rewrite Hne.
      rewrite !andb_false_r. simpl.
      destruct (active_names false (sweep env (now rq) (users w))); [done|].
      simpl. destruct (is_inhouse_user env login_id && _);
        eexists _, _; (split; [reflexivity|auto]). }
  exists w', msg. split; [by apply login_raises|done].
Qed.

(** The theorem at alice, logged in, asking to log in as bob. *)
Lemma user_mode_second_identity_rejected_witness :
  user_mode env_user = true
  /\ cur_user (user_request 0 true 1 "u") world_alice = Some alice
  /\ username alice <> "bob"
  /\ exists w' msg,
       login env_user (user_request 0 true 1 "u") "bob" "ok" world_alice
       = (w', Raise (Exception msg)).
Proof.
  assert (username alice <> "bob") as Hne by discriminate.
  assert (active_names false (sweep env_user 1 (users world_alice)) <> [])
    as Hact by discriminate.
  split; [reflexivity|]. split; [reflexivity|]. split; [exact Hne|].
  destruct (user_mode_second_identity_rejected env_user
              (user_request 0 true 1 "u") "bob" "ok" world_alice alice
              eq_refl eq_refl Hne Hact) as (w' & msg & H & _).
  exists w', msg. exact H.
Defined.

(** ** Login after admission *)

(** After admission, [login] is [update_operator(new_login=True)] run by the
    stored user, which is active. *)
Lemma login_after_admission (env : Env) (rq : Request)
    (login_id password : string) (w w1 : World) (r : LoginRes env) :
  _login env rq login_id password w = (w1, Ok r) ->
  roles_storable env login_id = true ->
  exists w4 i nu,
    users w4 !! i = Some nu
    /\ username nu = stored_name env rq login_id
    /\ active nu = true
    /\ (registry_ok (users w1) -> registry_ok (users w4))
    /\ login env rq login_id password w
       = update_operator env (as_user i rq) true w4.
Proof.
  intros Hl Hroles. unfold login, BaseUserManager_login. rewrite bind_eq, Hl.
  cbv zeta. rewrite bind_eq, update_active_users_eq. cbv beta iota.
  destruct (db_create_user_spec env rq login_id password r
              (default (uuid_sid rq) (session_sid rq)) (swept env (now rq) w1)
              Hroles)
    as (us3 & i & nu & Hcreate & Hi & Hname & Hok3).
  rewrite bind_eq, Hcreate.
  destruct (activate_user_eq i nu (with_users us3 (swept env (now rq) w1)) Hi)
    as (b & Hact).
  rewrite bind_eq, Hact.
  eexists _, i, (set_active true nu). split_and!; [| | | |reflexivity].
  - simpl. apply list_lookup_insert_eq. by eapply lookup_lt_Some.
  - done.
  - done.
  - intros Hok1. simpl.
    eapply registry_ok_no_grant; [apply Hok3, registry_ok_sweep, Hok1|].
    by apply (no_grant_insert _ _ nu).
Qed.

(** A login that returned was let in by [_login] and found its roles. *)
Lemma login_returns_inv (env : Env) (rq : Request)
    (login_id password : string) (w w' : World) :
  login env rq login_id password w = (w', Ok tt) ->
  roles_storable env login_id = true
  /\ exists w1 r, _login env rq login_id password w = (w1, Ok r).
Proof.
  intros Hlogin.
  destruct (_login env rq login_id password w) as [w1 [r|e]] eqn:Hl.
  2:{ rewrite (login_raises _ _ _ _ _ _ _ Hl) in Hlogin. discriminate. }
  destruct (login_ok_spec env rq login_id password w w1 r Hl) as (w2 & H & _).
  rewrite H in Hlogin. destruct (roles_storable env login_id); [eauto|].
  discriminate.
Qed.

Lemma filter_in_control_pos (us : list User) (j : nat) (u : User) :
  us !! j = Some u -> in_control u = true ->
  1 <= length (List.filter in_control us).
Proof.
  revert j. induction us as [|v us IH]; intros [|j] Hj Hu; try done; simpl in *.
  - injection Hj as ->. rewrite Hu. simpl. lia.
  - specialize (IH j Hj Hu). destruct (in_control v); simpl; lia.
Qed.

Lemma get_operator_from_Some (us : list User) :
  forall k, 1 <= length (List.filter in_control us) ->
  exists j u, get_operator_from k us = Some (k + j)
    /\ us !! j = Some u /\ in_control u = true
    /\ forall p v, p < j -> us !! p = Some v -> in_control v = false.
Proof.
  induction us as [|v us IH]; intros k Hlen; simpl in *; [lia|].
  destruct (in_control v) eqn:Hv.
  - exists 0, v. split_and!; auto; try (f_equal; lia); intros; lia.
  - destruct (IH (S k) Hlen) as (j & u & Hg & Hj & Hu & Hfirst).
    exists (S j), u. split_and!; auto; try (rewrite Hg; f_equal; lia).
    intros [|p] v' Hp Hv'; simpl in Hv'; [congruence|]. apply (Hfirst p); [lia|done].
Qed.

Lemma get_operator_from_None (us : list User) :
  forall k, List.filter in_control us = [] -> get_operator_from k us = None.
Proof.
  induction us as [|v us IH]; intros k Hnil; simpl in *; [done|].
  destruct (in_control v); [done|by apply IH].
Qed.

(** With unique names, [update_operator] run by a stored user leaves some
    user in control. *)
Lemma update_operator_some_operator (env : Env) (rq : Request) (b : bool)
    (w : World) (i : nat) (cu : User) :
  current_user rq = Some i -> users w !! i = Some cu ->
  NoDup (username <$> users w) ->
  exists w' j u,
    update_operator env rq b w = (w', Ok tt)
    /\ users w' !! j = Some u /\ in_control u = true.
Proof.
  intros Hc Hi Hnd.
  destruct (update_operator_spec env rq b w i cu Hc Hi)
    as (us1 & cu1 & _ & Hi1 & _ & Hus1 & Heq).
  specialize (Hus1 Hnd). subst us1.
  destruct (existsb (is_controlling env) (users w)) eqn:Hflag.
  - apply existsb_exists in Hflag as (u & Hu & Hctl).
    apply list_elem_of_In, list_elem_of_lookup in Hu as [j Hj].
    assert (demote env u = u) as Hdem by (unfold demote; by rewrite Hctl).
    assert ((demote env <$> users w) !! j = Some u) as Hj1
      by (by rewrite list_lookup_fmap, Hj; simpl; rewrite Hdem).
    pose proof (after_update_operator_lookup env i j b true _ _ _ Hi1 Hj1) as Hlk.
    cbv zeta in Hlk.
    unfold is_controlling in Hctl. apply andb_true_iff in Hctl as [_ Hctl].
    eexists _, j, _. split; [exact Heq|]. cbv zeta. simpl users.
    split; [exact Hlk|].
    destruct (decide (i = j)) as [->|Hne]; [|done].
    assert (cu1 = u) as -> by congruence. by destruct b.
  - pose proof (after_update_operator_lookup env i i b false _ _ _ Hi1 Hi1) as Hlk.
    cbv zeta in Hlk. rewrite !decide_True in Hlk by done.
    eexists _, i, _. split; [exact Heq|]. cbv zeta. simpl users.
    split; [exact Hlk|]. unfold grant. simpl.
    destruct b; simpl; apply String.eqb_refl.
Qed.

(** X5. [login] returns exactly when [_login] does and every role
    configured for [login_id] is in the role table: of what follows
    admission (sweep, creation or refresh of the user, activation,
    [update_operator]) only the commit that ends [db_create_user] raises. *)
Theorem login_returns_iff_roles (env : Env) (rq : Request)
    (login_id password : string) (w : World) :
  (exists w', login env rq login_id password w = (w', Ok tt))
  <-> (roles_storable env login_id = true
       /\ exists w1 r, _login env rq login_id password w = (w1, Ok r)).
Proof.
  split.
  - intros (w' & Hlogin). by eapply login_returns_inv.
  - intros (Hroles & w1 & r & Hl).
    destruct (login_ok_spec env rq login_id password w w1 r Hl) as (w' & H & _).
    rewrite Hroles in H. eauto.
Qed.

(** X6. A login that returns leaves, under the name [db_create_user] stores
    sessions ([login_id] in the "user" mode, [login_id-uuid] otherwise), a
    user that is active. *)
Theorem login_stores_active_session (env : Env) (rq : Request)
    (login_id password : string) (w w' : World) :
  login env rq login_id password w = (w', Ok tt) ->
  exists i u,
    users w' !! i = Some u
    /\ username u = stored_name env rq login_id
    /\ active u = true.
Proof.
  intros Hlogin.
  destruct (login_returns_inv env rq login_id password w w' Hlogin)
    as (Hroles & w1 & r & Hl).
  destruct (login_after_admission env rq login_id password w w1 r Hl Hroles)
    as (w4 & i & nu & Hi & Hname & Hact & _ & Heq).
  rewrite Heq in Hlogin.
  destruct (update_operator_spec env (as_user i rq) true w4 i nu eq_refl Hi)
    as (us1 & cu1 & _ & Hi1 & Hcu1 & _ & Hup).
  rewrite Hup in Hlogin. injection Hlogin as <-.
  pose proof (after_update_operator_lookup env i i true
                (existsb (is_controlling env) (users w4)) _ _ _ Hi1 Hi1) as Hlk.
  cbv zeta in Hlk. rewrite !decide_True in Hlk by done.
  eexists i, _. split; [exact Hlk|].
  destruct (existsb (is_controlling env) (users w4));
    destruct Hcu1 as [->| ->]; simpl; auto.
Qed.

(** The theorem at the first login of proposal 12345. *)
Lemma login_stores_active_session_witness :
  exists i u,
    users (fst (login env_proposal (anon_request true 0 "u1") "12345" "ok"
                  empty_world)) !! i = Some u
    /\ username u = "12345-u1" /\ active u = true.
Proof.
  exact (login_stores_active_session env_proposal (anon_request true 0 "u1")
           "12345" "ok" empty_world _ eq_refl).
Defined.

(** X7. On a datastore with unique names and at most one user in control, a
    login that returns leaves exactly one user in control, and
    [get_operator] returns that user. *)
Theorem login_leaves_one_operator (env : Env) (rq : Request)
    (login_id password : string) (w w' : World) :
  registry_ok (users w) ->
  login env rq login_id password w = (w', Ok tt) ->
  length (List.filter in_control (users w')) = 1
  /\ exists j u, get_operator w' = (w', Ok (Some j))
       /\ users w' !! j = Some u /\ in_control u = true.
Proof.
  intros Hok Hlogin.
  pose proof (registry_ok_login env rq login_id password w Hok) as Hok'.
  rewrite Hlogin in Hok'. simpl in Hok'.
  destruct (login_returns_inv env rq login_id password w w' Hlogin)
    as (Hroles & w1 & r & Hl).
  assert (registry_ok (users w1)) as Hok1.
  { pose proof (_login_users env rq login_id password w) as Hus.
    cbv zeta in Hus. rewrite Hl in Hus. simpl in Hus.
    destruct Hus as [->|(_ & _ & i & u & _ & _ & _ & ->)].
    - by apply registry_ok_sweep.
    - by apply registry_ok_delete, registry_ok_sweep. }
  destruct (login_after_admission env rq login_id password w w1 r Hl Hroles)
    as (w4 & i & nu & Hi & _ & _ & Hok4 & Heq).
  destruct (update_operator_some_operator env (as_user i rq) true w4 i nu
              eq_refl Hi (proj1 (Hok4 Hok1))) as (w'' & j & u & Hup & Hj & Hu).
  assert (w'' = w') as -> by congruence.
  pose proof (filter_in_control_pos _ _ _ Hj Hu) as Hpos.
  destruct Hok' as [_ Hle]. split; [lia|].
  destruct (get_operator_from_Some (users w') 0 Hpos) as (p & v & Hg & Hp & Hv & _).
  exists p, v. split_and!; auto.
  unfold get_operator. rewrite bind_eq. simpl. by rewrite Hg.
Qed.

(** The theorem at a login as bob while alice is the operator. *)
Lemma login_leaves_one_operator_witness :
  registry_ok (users world_alice)
  /\ length (List.filter in_control
       (users (fst (login env_user (anon_request true 1 "u") "bob" "ok"
                      world_alice)))) = 1.
Proof.
  assert (registry_ok (users world_alice)) as Hok.
  { split; [|simpl; lia]. apply (bool_decide_unpack _). vm_compute. exact I. }
  split; [exact Hok|].
  exact (proj1 (login_leaves_one_operator env_user (anon_request true 1 "u")
                  "bob" "ok" world_alice _ Hok eq_refl)).
Defined.

(** ** Signing out *)

Lemma set_in_control_id (u : User) : set_in_control (in_control u) u = u.
Proof. by destruct u. Qed.

Lemma signout_eq (rq : Request) (w : World) (i : nat) (cu : User) :
  current_user rq = Some i -> users w !! i = Some cu ->
  NoDup (username <$> users w) ->
  signout rq w
  = (mkWorld (<[i := set_active false (set_in_control false cu)]> (users w))
       (selected w)
       (events w ++ (if in_control cu then [ResourceReset] else [])
          ++ [ObserversChanged]),
     Ok tt).
Proof.
  intros Hc Hi Hnd. unfold signout. rewrite bind_eq, is_operator_eq.
  unfold cur_user. rewrite Hc, Hi. cbv beta iota.
  destruct (in_control cu) eqn:Hctl.
  - rewrite !bind_eq. unfold emit at 1. cbv beta iota.
    destruct (db_set_in_control_false_eq i cu
                (mkWorld (users w) (selected w) (events w ++ [ResourceReset])) Hi)
      as (k & uk & _ & Hk & _ & Hf & ->).
    simpl users in *.
    rewrite (find_user_from_NoDup _ _ _ Hnd Hi) in Hf. injection Hf as <-.
    assert (uk = cu) as -> by congruence.
    cbv beta iota. rewrite !bind_eq.
    erewrite deactivate_user_eq
      by (simpl; apply list_lookup_insert_eq; by eapply lookup_lt_Some).
    cbv beta iota. rewrite ret_eq. unfold emit, with_users. simpl.
    by rewrite list_insert_insert_eq, <- app_assoc.
  - rewrite bind_eq, ret_eq. cbv beta iota. rewrite !bind_eq.
    rewrite (deactivate_user_eq i cu w Hi). cbv beta iota. rewrite ret_eq.
    unfold emit, with_users. simpl.
    by rewrite <- Hctl, set_in_control_id.
Qed.

Lemma at_most_one_in_control (us : list User) (i j : nat) (u v : User) :
  length (List.filter in_control us) <= 1 ->
  us !! i = Some u -> in_control u = true ->
  us !! j = Some v -> in_control v = true -> i = j.
Proof.
  revert i j. induction us as [|x us IH]; intros i j Hlen Hi Hu Hj Hv; [done|].
  simpl in Hlen. destruct i as [|i], j as [|j]; simpl in *; auto.
  - injection Hi as ->. rewrite Hu in Hlen. simpl in Hlen.
    pose proof (filter_in_control_pos us j v Hj Hv). lia.
  - injection Hj as ->. rewrite Hv in Hlen. simpl in Hlen.
    pose proof (filter_in_control_pos us i u Hi Hu). lia.
  - f_equal. apply IH; auto. destruct (in_control x); simpl in Hlen; lia.
Qed.

Lemma filter_in_control_nil (us : list User) :
  (forall j v, us !! j = Some v -> in_control v = false) ->
  List.filter in_control us = [].
Proof.
  induction us as [|x us IH]; intros Hall; [done|]. simpl.
  rewrite (Hall 0 x eq_refl). apply IH. intros j v Hj. by apply (Hall (S j)).
Qed.

(** X8. With unique names, [signout] by a stored user returns normally; it
    leaves that user inactive and not in control and every other user as it
    was, selects no proposal, and emits the resource clean-up exactly when
    the user was in control, then "observersChanged". *)
Theorem signout_effect (rq : Request) (w : World) (i : nat) (cu : User) :
  current_user rq = Some i -> users w !! i = Some cu ->
  NoDup (username <$> users w) ->
  exists w',
    signout rq w = (w', Ok tt)
    /\ users w' = <[i := set_active false (set_in_control false cu)]> (users w)
    /\ selected w' = selected w
    /\ events w'
       = events w ++ (if in_control cu then [ResourceReset] else [])
           ++ [ObserversChanged].
Proof.
  intros Hc Hi Hnd. eexists. split; [by apply signout_eq|]. done.
Qed.

(** The theorem at alice, the operator, signing out. *)
Lemma signout_effect_witness :
  current_user (user_request 0 true 1 "u") = Some 0
  /\ users world_alice_carol !! 0 = Some alice
  /\ NoDup (username <$> users world_alice_carol)
  /\ exists w',
       signout (user_request 0 true 1 "u") world_alice_carol = (w', Ok tt)
       /\ events w' = [ResourceReset; ObserversChanged].
Proof.
  assert (NoDup (username <$> users world_alice_carol)) as Hnd.
  { apply (bool_decide_unpack _). vm_compute. exact I. }
  split; [reflexivity|]. split; [reflexivity|]. split; [exact Hnd|].
  destruct (signout_effect (user_request 0 true 1 "u") world_alice_carol 0 alice
              eq_refl eq_refl Hnd) as (w' & H & _ & _ & Hev).
  exists w'. split; [exact H|exact Hev].
Defined.

(** X9. [signout] without a logged-in user raises [AttributeError] (the
    anonymous user has no attribute [active]) and leaves the world as it
    was. *)
Theorem signout_anonymous_raises (rq : Request) (w : World) :
  cur_user rq w = None ->
  signout rq w
  = (w, Raise (AttributeError "'AnonymousUser' object has no attribute 'active'")).
Proof.
  intros Hn. unfold signout. rewrite bind_eq, is_operator_eq, Hn.
  cbv beta iota. rewrite bind_eq, ret_eq. cbv beta iota. rewrite bind_eq.
  unfold cur_user in Hn. destruct (current_user rq) as [i|]; [|done].
  unfold deactivate_user. rewrite !bind_eq. unfold get_world. cbv beta iota.
  by rewrite Hn.
Qed.

(** The theorem at an anonymous request. *)
Lemma signout_anonymous_raises_witness :
  cur_user (anon_request true 1 "u") world_alice = None
  /\ fst (signout (anon_request true 1 "u") world_alice) = world_alice.
Proof.
  split; [reflexivity|].
  by rewrite (signout_anonymous_raises (anon_request true 1 "u") world_alice eq_refl).
Defined.

(** X10. When the operator of a well-formed datastore signs out, nobody is
    in control afterwards and [get_operator] returns [None]: [signout]
    promotes no other user. *)
Theorem signout_leaves_no_operator (rq : Request) (w : World) (i : nat)
    (cu : User) :
  registry_ok (users w) ->
  current_user rq = Some i -> users w !! i = Some cu -> in_control cu = true ->
  exists w',
    signout rq w = (w', Ok tt)
    /\ List.filter in_control (users w') = []
    /\ get_operator w' = (w', Ok None).
Proof.
  intros [Hnd Hone] Hc Hi Hctl. eexists. split; [by apply signout_eq|].
  simpl users.
  assert (List.filter in_control
            (<[i := set_active false (set_in_control false cu)]> (users w)) = [])
    as Hnil.
  { apply filter_in_control_nil. intros j v Hj.
    destruct (decide (i = j)) as [->|Hne].
    - rewrite list_lookup_insert_eq in Hj by (by eapply lookup_lt_Some).
      by injection Hj as <-.
    - rewrite list_lookup_insert_ne in Hj by done.
      destruct (in_control v) eqn:Hv; [|done].
      exfalso. apply Hne. by eapply (at_most_one_in_control (users w)). }
  split; [done|]. unfold get_operator. rewrite bind_eq. simpl.
  by rewrite get_operator_from_None.
Qed.

(** The theorem at alice, the operator, signing out next to carol. *)
Lemma signout_leaves_no_operator_witness :
  registry_ok (users world_alice_carol)
  /\ in_control alice = true
  /\ exists w',
       signout (user_request 0 true 1 "u") world_alice_carol = (w', Ok tt)
       /\ get_operator w' = (w', Ok None).
Proof.
  assert (registry_ok (users world_alice_carol)) as Hok.
  { split; [|simpl; lia]. apply (bool_decide_unpack _). vm_compute. exact I. }
  split; [exact Hok|]. split; [reflexivity|].
  destruct (signout_leaves_no_operator (user_request 0 true 1 "u")
              world_alice_carol 0 alice Hok eq_refl eq_refl eq_refl)
    as (w' & H & _ & Hg).
  exists w'. split; [exact H|exact Hg].
Defined.

(** ** Forced signout *)

(** X11. With unique names, [force_signout_user] on the name of a stored user
    returns normally.  If that user is in control and the requester is logged
    in, nothing changes.  Otherwise the user is deleted, no user has the name
    any more, and "forceSignout" is sent to the socket of the deleted
    user. *)
Theorem force_signout_user_effect (rq : Request) (name : string) (w : World) :
  name ∈ username <$> users w -> NoDup (username <$> users w) ->
  exists i u,
    users w !! i = Some u /\ username u = name
    /\ if in_control u
          && match cur_user rq w with Some _ => true | None => false end
       then force_signout_user rq name w = (w, Ok tt)
       else exists w',
              force_signout_user rq name w = (w', Ok tt)
              /\ users w' = delete i (users w)
              /\ (name ∉ username <$> users w')
              /\ events w' = events w ++ [ForceSignout (socketio_session_id u)].
Proof.
  intros Hin Hnd.
  destruct (force_signout_user_present rq name w Hin)
    as (i & u & _ & Hi & Hu & Hfs).
  exists i, u. split_and!; auto. rewrite Hfs.
  destruct (in_control u), (cur_user rq w); simpl; auto;
    (eexists; split; [reflexivity|]; simpl; split_and!; auto;
     rewrite fmap_delete_list; apply NoDup_delete_lookup; [done|];
     by rewrite list_lookup_fmap, Hi, <- Hu).
Qed.

(** The theorem at carol, an observer, forcing herself or being forced out. *)
Lemma force_signout_user_effect_witness :
("carol" ∈ username <$> users world_alice_carol)
  /\ NoDup (username <$> users world_alice_carol)
  /\ users (fst (force_signout_user (user_request 0 true 1 "u") "carol"
                   world_alice_carol)) = [alice].
Proof.
  assert ("carol" ∈ username <$> users world_alice_carol) as Hin.
  { apply str_in_true. reflexivity. }
  assert (NoDup (username <$> users world_alice_carol)) as Hnd.
  { apply (bool_decide_unpack _). vm_compute. exact I. }
  split; [exact Hin|]. split; [exact Hnd|].
  destruct (force_signout_user_effect (user_request 0 true 1 "u") "carol"
              world_alice_carol Hin Hnd) as (i & u & _ & _ & _).
  reflexivity.
Defined.

(** ** Handing control over *)

(** X12. With unique names, [set_operator(username)] returns normally and
    leaves in control exactly the user of that name, every other field of
    every user as it was.  It returns that user, or [None] when no user has
    the name. *)
Theorem set_operator_effect (name : string) (w : World) :
  NoDup (username <$> users w) ->
  exists w' r,
    set_operator name w = (w', Ok r)
    /\ users w' = (fun u => set_in_control (String.eqb (username u) name) u)
                    <$> users w
    /\ match r with
       | Some i => exists u, users w !! i = Some u /\ username u = name
       | None => name ∉ username <$> users w
       end.
Proof.
  intros Hnd. eexists _, _. split; [by apply set_operator_eq|].
  split; [done|].
  destruct (decide (name ∈ username <$> users w)) as [Hin|Hn].
  - destruct (get_user_from_present name (users w) 0 None Hin)
      as (i & u & -> & Hi & Hu & _). eauto.
  - by rewrite get_user_from_absent.
Qed.

(** The theorem at control handed from alice to carol. *)
Lemma set_operator_effect_witness :
  NoDup (username <$> users world_alice_carol)
  /\ exists w' r,
       set_operator "carol" world_alice_carol = (w', Ok r)
       /\ in_control <$> users w' = [false; true].
Proof.
  assert (NoDup (username <$> users world_alice_carol)) as Hnd.
  { apply (bool_decide_unpack _). vm_compute. exact I. }
  split; [exact Hnd|].
  destruct (set_operator_effect "carol" world_alice_carol Hnd)
    as (w' & r & H & Hus & _).
  exists w', r. split; [exact H|]. rewrite Hus. reflexivity.
Defined.

(** X13. With unique names, [set_operator] on a name that no user has
    returns [None] and takes control away from every user. *)
Theorem set_operator_unknown_revokes (name : string) (w : World) :
  NoDup (username <$> users w) -> name ∉ username <$> users w ->
  exists w',
    set_operator name w = (w', Ok None)
    /\ List.filter in_control (users w') = []
    /\ get_operator w' = (w', Ok None).
Proof.
  intros Hnd Hn. eexists. rewrite set_operator_eq by done.
  rewrite get_user_from_absent by done. split; [reflexivity|]. simpl users.
  assert (List.filter in_control (grant name <$> users w) = []) as Hnil.
  { apply filter_in_control_nil. intros j v Hj.
    rewrite list_lookup_fmap in Hj.
    destruct (users w !! j) as [u|] eqn:Hu; [|done]. injection Hj as <-.
    unfold grant. simpl. apply String.eqb_neq. intros Heq. apply Hn.
    rewrite <- Heq. apply list_elem_of_fmap. exists u. split; [done|].
    apply list_elem_of_lookup. eauto. }
  split; [done|]. unfold get_operator. rewrite bind_eq. simpl.
  by rewrite get_operator_from_None.
Qed.

(** The theorem at a name nobody has, with alice in control. *)
Lemma set_operator_unknown_revokes_witness :
  NoDup (username <$> users world_alice_carol)
  /\ ("dave" ∉ username <$> users world_alice_carol)
  /\ exists w', set_operator "dave" world_alice_carol = (w', Ok None).
Proof.
  assert (NoDup (username <$> users world_alice_carol)) as Hnd.
  { apply (bool_decide_unpack _). vm_compute. exact I. }
  assert ("dave" ∉ username <$> users world_alice_carol) as Hn.
  { apply str_in_false. reflexivity. }
  split; [exact Hnd|]. split; [exact Hn|].
  destruct (set_operator_unknown_revokes "dave" world_alice_carol Hnd Hn)
    as (w' & H & _).
  exists w'. exact H.
Defined.

(** ** The sweep and the operator *)

Lemma get_operator_from_ext (us us' : list User) :
  forall k, in_control <$> us = in_control <$> us' ->
  get_operator_from k us = get_operator_from k us'.
Proof.
  revert us'. induction us as [|u us IH]; intros [|u' us'] k Heq;
    try done; rewrite !fmap_cons in Heq.
  injection Heq as Hu Hrest. simpl. rewrite Hu.
  destruct (in_control u'); [done|by apply IH].
Qed.

(** X14. A timeout sweep does not change what [get_operator] returns: an
    operator whose session expired is still returned, inactive. *)
Theorem get_operator_after_sweep (env : Env) (rq : Request) (w : World) :
  snd (get_operator (fst (update_active_users env rq w)))
  = snd (get_operator w).
Proof.
  rewrite update_active_users_eq. unfold get_operator. rewrite !bind_eq.
  simpl.
  rewrite (get_operator_from_ext (sweep env (now rq) (users w)) (users w));
    [done|].
  unfold sweep. rewrite <- list_fmap_compose. apply list_fmap_ext.
  intros i u _. simpl. apply expire_in_control.
Qed.

Lemma sweep_events_sweep (env : Env) (t : Z) (us : list User) :
  sweep_events env t (sweep env t us) = [].
Proof.
  unfold sweep_events, sweep. induction us as [|u us IH]; [done|].
  rewrite fmap_cons. simpl. by rewrite timed_out_expire, IH.
Qed.

(** X15. A second [update_active_users] at the same time changes no user and
    emits "observersChanged" only. *)
Theorem sweep_twice (env : Env) (rq : Request) (w : World) :
  let w1 := fst (update_active_users env rq w) in
  let w2 := fst (update_active_users env rq w1) in
  users w2 = users w1 /\ events w2 = events w1 ++ [ObserversChanged].
Proof.
  cbv zeta. rewrite !update_active_users_eq. simpl. split.
  - apply sweep_idemp.
  - by rewrite sweep_events_sweep.
Qed.

(** ** Re-evaluation on [login_info] *)

Lemma lift_eq {A} (x : exn + A) (w : World) :
  lift x w = (w, match x with inl e => Raise e | inr a => Ok a end).
Proof. by destruct x. Qed.

(** X16. [login_info] called by a logged-in user whose [limsdata] can be
    read, when no authenticated user is in control, puts that user in
    control: afterwards the users in control are exactly those with the
    caller's name.  This is so whether the construction of the dictionary,
    which is made from the caller as updated, then returns or raises. *)
Theorem login_info_promotes {J R : Type} (env : Env) (rq : Request)
    (loads : string -> exn + J) (build : World -> J -> User -> exn + R)
    (w : World) (i : nat) (cu : User) (info : J) :
  current_user rq = Some i -> users w !! i = Some cu ->
  loads (limsdata cu) = inr info ->
  existsb (is_controlling env) (users w) = false ->
  exists w' cu',
    login_info env rq loads build w
    = (w', match build w' info cu' with inl e => Raise e | inr res => Ok res end)
    /\ users w' !! i = Some cu'
    /\ username cu' = username cu
    /\ in_control cu' = true
    /\ forall j v, users w' !! j = Some v ->
       in_control v = String.eqb (username v) (username cu).
Proof.
  intros Hc Hi Hloads Hflag.
  destruct (update_operator_spec env rq false w i cu Hc Hi)
    as (us1 & cu1 & _ & Hi1 & Hcu1 & _ & Hup).
  rewrite Hflag in Hup. cbv zeta in Hup.
  pose proof (after_update_operator_lookup env i i false false _ _ _ Hi1 Hi1)
    as Hlk.
  cbv zeta in Hlk. rewrite !decide_True in Hlk by done.
  assert (username cu1 = username cu) as Hn by (by destruct Hcu1 as [->| ->]).
  eexists _, _. split_and!.
  - unfold login_info. rewrite bind_eq. unfold get_world at 1. cbv beta iota.
    unfold cur_user at 1. rewrite Hc, Hi, Hloads.
    rewrite bind_eq, lift_eq. cbv beta iota. rewrite bind_eq, Hup.
    cbv beta iota. rewrite bind_eq. unfold get_world. cbv beta iota.
    unfold cur_user. rewrite Hc. cbn [users]. rewrite Hlk.
    rewrite lift_eq. reflexivity.
  - exact Hlk.
  - done.
  - simpl. rewrite Hn. apply String.eqb_refl.
  - simpl users. intros j v Hj. unfold after_update_operator in Hj.
    rewrite list_lookup_fmap in Hj.
    destruct (_ !! j) as [x|]; [|done]. injection Hj as <-.
    simpl. by rewrite Hn.
Qed.

(** The theorem at carol asking for the login information once the sweep
    has deactivated alice, the operator. *)
Lemma login_info_promotes_witness :
  users (swept env_user 200 world_alice_carol) !! 1 = Some carol
  /\ existsb (is_controlling env_user)
       (users (swept env_user 200 world_alice_carol)) = false
  /\ exists w' cu',
       login_info env_user (user_request 1 true 200 "u")
         (fun s => inr s) (fun _ _ u => inr (nickname u))
         (swept env_user 200 world_alice_carol) = (w', Ok (nickname cu'))
       /\ in_control cu' = true /\ username cu' = "carol".
Proof.
  split; [reflexivity|]. split; [reflexivity|].
  destruct (login_info_promotes env_user (user_request 1 true 200 "u")
              (fun s => inr s) (fun _ _ u => inr (nickname u))
              (swept env_user 200 world_alice_carol) 1 carol "{}"
              eq_refl eq_refl eq_refl eq_refl)
    as (w' & cu' & H & _ & Hn & Hc & _).
  exists w', cu'. split; [exact H|]. split; [exact Hc|exact Hn].
Defined.

(** X17. [login_info] called by a logged-in user whose [limsdata] can be
    read, when an authenticated user is in control, grants control to
    nobody: users keep their place and name, and whoever is in control
    afterwards was before.  The dictionary is made from the caller as it is
    then, and [login_info] returns or raises as that construction does. *)
Theorem login_info_keeps_operator {J R : Type} (env : Env) (rq : Request)
    (loads : string -> exn + J) (build : World -> J -> User -> exn + R)
    (w : World) (i : nat) (cu : User) (info : J) :
  current_user rq = Some i -> users w !! i = Some cu ->
  loads (limsdata cu) = inr info ->
  existsb (is_controlling env) (users w) = true ->
  exists w' cu',
    login_info env rq loads build w
    = (w', match build w' info cu' with inl e => Raise e | inr res => Ok res end)
    /\ users w' !! i = Some cu'
    /\ no_grant (users w) (users w').
Proof.
  intros Hc Hi Hloads Hflag.
  destruct (update_operator_spec env rq false w i cu Hc Hi)
    as (us1 & cu1 & Hlow & Hi1 & _ & _ & Hup).
  rewrite Hflag in Hup. cbv zeta in Hup.
  unfold after_update_operator in Hup. cbv zeta in Hup.
  rewrite list_insert_id in Hup by done.
  eexists _, _. split_and!.
  - unfold login_info. rewrite bind_eq. unfold get_world at 1. cbv beta iota.
    unfold cur_user at 1. rewrite Hc, Hi, Hloads.
    rewrite bind_eq, lift_eq. cbv beta iota. rewrite bind_eq, Hup.
    cbv beta iota. rewrite bind_eq. unfold get_world. cbv beta iota.
    unfold cur_user. rewrite Hc. cbn [users]. rewrite Hi1.
    rewrite lift_eq. reflexivity.
  - exact Hi1.
  - simpl. by apply lowered_no_grant.
Qed.

(** The theorem at carol asking for the login information while alice is in
    control. *)
Lemma login_info_keeps_operator_witness :
  existsb (is_controlling env_user) (users world_alice_carol) = true
  /\ exists w' r,
       login_info env_user (user_request 1 true 1 "u")
         (fun s => inr s) (fun _ _ u => inr (nickname u))
         world_alice_carol = (w', Ok r)
       /\ no_grant (users world_alice_carol) (users w').
Proof.
  split; [reflexivity|].
  destruct (login_info_keeps_operator env_user (user_request 1 true 1 "u")
              (fun s => inr s) (fun _ _ u => inr (nickname u))
              world_alice_carol 1 carol "{}" eq_refl eq_refl eq_refl eq_refl)
    as (w' & cu' & H & _ & Hng).
  exists w', (nickname cu'). split; [exact H|exact Hng].
Defined.

(** X26. When the [limsdata] of the caller cannot be read, [login_info]
    raises before [update_operator] runs: nobody is promoted or lowered, and
    the selected proposals and the messages are as they were. *)
Theorem login_info_stops_early {J R : Type} (env : Env) (rq : Request)
    (loads : string -> exn + J) (build : World -> J -> User -> exn + R)
    (w : World) (cu : User) (e : exn) :
  cur_user rq w = Some cu -> loads (limsdata cu) = inl e ->
  login_info env rq loads build w = (w, Raise e).
Proof.
  intros Hcu He. unfold login_info. rewrite bind_eq. unfold get_world.
  cbv beta iota. by rewrite Hcu, He.
Qed.

(** The theorem at carol, whom [login_info] would put in control if her
    [limsdata] could be read. *)
Lemma login_info_stops_early_witness :
  cur_user (user_request 1 true 200 "u") (swept env_user 200 world_alice_carol)
  = Some carol
  /\ existsb (is_controlling env_user)
       (users (swept env_user 200 world_alice_carol)) = false
  /\ login_info env_user (user_request 1 true 200 "u")
       (fun _ => inl (Exception "Expecting value") : exn + string)
       (fun _ _ u => inr (nickname u))
       (swept env_user 200 world_alice_carol)
     = (swept env_user 200 world_alice_carol,
        Raise (Exception "Expecting value")).
Proof.
  split; [reflexivity|]. split; [reflexivity|].
  exact (login_info_stops_early env_user (user_request 1 true 200 "u")
           (fun _ => inl (Exception "Expecting value") : exn + string)
           (fun _ _ u => inr (nickname u))
           (swept env_user 200 world_alice_carol) carol _ eq_refl eq_refl).
Defined.

(** ** Names and roles of stored sessions *)

(** X18. Outside the "user" login mode, the prefix that [_login] reads off
    the name [db_create_user] gives a session is the login id, provided the
    login id has no hyphen. *)
Theorem stored_name_prefix (env : Env) (rq : Request) (login_id : string) :
  user_mode env = false -> hyphen_free login_id = true ->
  split_hyphen_0 (stored_name env rq login_id) = login_id.
Proof.
  intros Hmode Hfree. unfold stored_name. rewrite Hmode.
  by apply split_hyphen_0_prefix.
Qed.

(** The theorem at the login id 12345. *)
Lemma stored_name_prefix_witness :
  user_mode env_proposal = false /\ hyphen_free "12345" = true
  /\ split_hyphen_0 (stored_name env_proposal (anon_request true 1 "u1") "12345")
     = "12345".
Proof.
  split; [reflexivity|]. split; [reflexivity|].
  exact (stored_name_prefix env_proposal (anon_request true 1 "u1") "12345"
           eq_refl eq_refl).
Defined.

(** X19. The prefix [_login] reads off a name has no hyphen, and a login id
    with a hyphen is cut at it: the prefix of its stored name is not the
    login id. *)
Theorem split_hyphen_0_cuts (env : Env) (rq : Request) (login_id : string) :
  hyphen_free (split_hyphen_0 (stored_name env rq login_id)) = true
  /\ (hyphen_free login_id = false ->
      split_hyphen_0 (stored_name env rq login_id) <> login_id).
Proof.
  assert (forall s, hyphen_free (split_hyphen_0 s) = true) as Hfree.
  { induction s as [|c s IH]; simpl; [done|].
    destruct (Ascii.eqb c "-") eqn:Hc; [done|]. simpl. by rewrite Hc. }
  split; [apply Hfree|]. intros Hid Heq. rewrite <- Heq, Hfree in Hid.
  discriminate.
Qed.

(** The second part of the theorem at the login id ab-cd. *)
Lemma split_hyphen_0_cuts_witness :
  hyphen_free "ab-cd" = false
  /\ split_hyphen_0 (stored_name env_proposal (anon_request true 1 "u1") "ab-cd")
     <> "ab-cd".
Proof.
  split; [reflexivity|].
  exact (proj2 (split_hyphen_0_cuts env_proposal (anon_request true 1 "u1")
                  "ab-cd") eq_refl).
Defined.

(** ** Creating and replacing sessions *)

Lemma db_create_user_eq (env : Env) (rq : Request) (user password : string)
    (lims_data : LoginRes env) (sid : string) (w : World) :
  db_create_user env rq user password lims_data sid w =
  if roles_storable env user then
    match find_user_from (stored_name env rq user) 0 (users w) with
    | Some k =>
        match users w !! k with
        | Some uk =>
            (with_users (<[k := refreshed env user lims_data uk]> (users w)) w,
             Ok (Some k))
        | None => (w, Ok (Some k))
        end
    | None =>
        (with_users (users w ++ [created_user env rq user lims_data sid]) w,
         Ok (Some (length (users w))))
    end
  else (w, Raise (FlushError msg_flush)).
Proof.
  destruct (roles_storable env user) eqn:Hroles;
    [|by apply db_create_user_raises].
  unfold db_create_user. fold (stored_name env rq user). cbv zeta.
  set (uname := stored_name env rq user).
  rewrite bind_eq, find_user_eq. cbv beta iota. rewrite Hroles.
  destruct (find_user_from uname 0 (users w)) as [k|] eqn:Hf.
  - destruct (find_user_from_Some _ _ _ _ Hf) as (_ & uk & Hk & Hn).
    rewrite Nat.sub_0_r in Hk.
    rewrite bind_eq, with_user_eq, Hk. unfold modify_users. cbv beta iota.
    fold (refreshed env user lims_data uk).
    rewrite find_user_eq. simpl users.
    rewrite (find_user_from_ext uname _ (users w)), Hf; [done|].
    rewrite list_fmap_insert. apply list_insert_id.
    by rewrite list_lookup_fmap, Hk.
  - apply find_user_from_absent in Hf.
    rewrite bind_eq. unfold modify_users at 1. cbv beta iota.
    fold uname. fold (created_user env rq user lims_data sid).
    rewrite find_user_eq. simpl users.
    by rewrite (find_user_from_snoc uname).
Qed.


Lemma _login_evicts (env : Env) (rq : Request) (login_id password : string)
    (w : World) :
  let us := sweep env (now rq) (users w) in
  cur_user rq w = None -> str_in login_id (active_names false us) = true ->
  exists i u, us !! i = Some u /\ username u = login_id
    /\ users (fst (_login env rq login_id password w)) = delete i us.
Proof.
  intros us Hanon Hin. rewrite _login_eq. cbv zeta. fold us.
  pose proof (cur_user_swept env rq w) as Hcur. rewrite Hanon in Hcur.
  simpl in Hcur.
  destruct (self_conflict_rule_cases rq login_id (active_names false us)
              (swept env (now rq) w) (swept_names_sub env (now rq) false w))
    as [[Hf _]|[(_ & cu & Hcu & _)|(_ & _ & i & u & _ & Hi & Hu & ->)]];
    [congruence|congruence|].
  exists i, u. split_and!; auto.
  rewrite admission_rules_users; [done|].
  simpl. fold us. rewrite sweep_delete. unfold us. by rewrite sweep_idemp.
Qed.

(** X21. Reconnection in the "user" login mode.  On a well-formed datastore,
    an anonymous requester who logs in under the name of an active session,
    with accepted credentials, from an allowed origin and with configured
    roles that are all in the role table, is let in: the stale session is
    replaced by a fresh active one that carries the "sid" of the request, no
    other user has the name, and the number of users is unchanged. *)
Theorem reconnect_replaces_session (env : Env) (rq : Request)
    (login_id password : string) (w : World) :
  registry_ok (users w) ->
  user_mode env = true -> cur_user rq w = None ->
  str_in login_id (active_names false (sweep env (now rq) (users w))) = true ->
  lims_valid_login env (lims_login env login_id password) = true ->
  local_host rq = true
  \/ (ALLOW_REMOTE env = true /\ is_inhouse_user env login_id = false) ->
  roles_storable env login_id = true ->
  exists w' j u,
    login env rq login_id password w = (w', Ok tt)
    /\ users w' !! j = Some u
    /\ username u = login_id /\ active u = true
    /\ session_id u = default (uuid_sid rq) (session_sid rq)
    /\ length (users w') = length (users w)
    /\ forall p v, users w' !! p = Some v -> username v = login_id -> p = j.
Proof.
  intros Hok Hmode Hanon Hin Hvalid Horigin Hroles.
  destruct (user_mode_anonymous_admitted_aux env rq login_id password w
              Hmode Hanon Hvalid Horigin) as (w1 & r & Hl).
  destruct (_login_evicts env rq login_id password w Hanon Hin)
    as (i & u & Hi & Hu & Hus1).
  rewrite Hl in Hus1. simpl in Hus1.
  set (us := sweep env (now rq) (users w)) in *.
  assert (registry_ok us) as [Hnd Hone] by (by apply registry_ok_sweep).
  assert (login_id ∉ username <$> delete i us) as Hfresh.
  { rewrite fmap_delete_list. apply NoDup_delete_lookup; [done|].
    by rewrite list_lookup_fmap, Hi, <- Hu. }
  assert (i < length us) as Hlt by (by eapply lookup_lt_Some).
  set (sid := default (uuid_sid rq) (session_sid rq)).
  set (nu := created_user env rq login_id r sid).
  set (j := length (delete i us)).
  assert (users (swept env (now rq) w1) = delete i us) as Hsw.
  { simpl. rewrite Hus1, sweep_delete. unfold us. by rewrite sweep_idemp. }
  assert (stored_name env rq login_id = login_id) as Hsn
    by (unfold stored_name; by rewrite Hmode).
  assert ((delete i us ++ [nu]) !! j = Some nu) as Hjnu
    by (by apply list_lookup_middle).
  set (w4 := with_users (<[j := set_active true nu]> (delete i us ++ [nu]))
               (with_users (delete i us ++ [nu]) (swept env (now rq) w1))).
  assert (login env rq login_id password w
          = update_operator env (as_user j rq) true w4) as Hlogin.
  { unfold login, BaseUserManager_login. rewrite bind_eq, Hl.
    cbv zeta. rewrite bind_eq, update_active_users_eq. cbv beta iota.
    rewrite bind_eq, db_create_user_eq. rewrite Hroles, Hsw, Hsn.
    assert (find_user_from login_id 0 (delete i us) = None) as ->
      by (by apply find_user_from_absent).
    fold sid. fold nu. fold j.
    destruct (activate_user_eq j nu
                (with_users (delete i us ++ [nu]) (swept env (now rq) w1)) Hjnu)
      as (b & Hact).
    by rewrite bind_eq, Hact. }
  assert (users w4 !! j = Some nu) as Hj.
  { unfold w4. simpl. rewrite list_lookup_insert_eq; [done|].
    by eapply lookup_lt_Some. }
  destruct (update_operator_spec env (as_user j rq) true w4 j nu eq_refl Hj)
    as (us1 & cu1 & Hlow & Hj1 & Hcu1 & _ & Hup).
  pose proof (after_update_operator_lookup env j j true
                (existsb (is_controlling env) (users w4)) _ _ _ Hj1 Hj1) as Hlk.
  cbv zeta in Hlk, Hup. rewrite !decide_True in Hlk by done.
  pose proof (after_update_operator_length env j true
                (existsb (is_controlling env) (users w4)) us1 cu1) as HlenF.
  set (flag := existsb (is_controlling env) (users w4)) in *.
  set (usF := after_update_operator env j true flag us1 cu1) in *.
  clearbody usF flag.
  assert (registry_ok (users (fst (login env rq login_id password w)))) as Hok'
    by (by apply registry_ok_login).
  rewrite Hlogin, Hup in Hok'. cbn [fst users] in Hok'.
  assert (username nu = login_id) as Hnu by exact Hsn.
  assert (username cu1 = login_id /\ active cu1 = true /\ session_id cu1 = sid)
    as (Hn1 & Ha1 & Hs1) by (by destruct Hcu1 as [->| ->]).
  eexists _, j, _. rewrite Hlogin. split; [exact Hup|].
  cbn [users]. split; [exact Hlk|].
  split_and!.
  - by destruct flag.
  - by destruct flag.
  - by destruct flag.
  - rewrite HlenF, <- (Forall2_length _ _ _ Hlow). unfold w4. simpl.
    rewrite length_insert, length_app, length_delete by eauto. simpl.
    unfold us. rewrite length_sweep. unfold us in Hlt.
    rewrite length_sweep in Hlt. lia.
  - intros p v Hp Hv. destruct Hok' as [Hnd' _].
    eapply NoDup_lookup; [exact Hnd'| |].
    + rewrite list_lookup_fmap, Hp. simpl. by rewrite Hv.
    + rewrite list_lookup_fmap, Hlk. by destruct flag; simpl; rewrite ?Hn1.
Qed.

(** The theorem at an anonymous login as alice while alice's session is
    active. *)
Lemma reconnect_replaces_session_witness :
  registry_ok (users world_alice)
  /\ str_in "alice"
       (active_names false (sweep env_user 1 (users world_alice))) = true
  /\ roles_storable env_user "alice" = true
  /\ exists w',
       login env_user (anon_request true 1 "u") "alice" "ok" world_alice
       = (w', Ok tt)
       /\ length (users w') = 1.
Proof.
  assert (registry_ok (users world_alice)) as Hok.
  { split; [|simpl; lia]. apply (bool_decide_unpack _). vm_compute. exact I. }
  split; [exact Hok|]. split; [reflexivity|]. split; [reflexivity|].
  destruct (reconnect_replaces_session env_user (anon_request true 1 "u")
              "alice" "ok" world_alice Hok eq_refl eq_refl eq_refl eq_refl
              (or_introl eq_refl) eq_refl)
    as (w' & j & u & H & _ & _ & _ & _ & Hlen & _).
  exists w'. split; [exact H|exact Hlen].
Defined.

(** X27. The roles configured for a user do not depend on the order in
    which Python lists a set: the list has no repetition, and it holds
    "staff" when in-house users are staff and the user is in-house, the role
    of the first configured user of that name, and nothing else. *)
Theorem configured_roles_elem (env : Env) (user r : string) :
  NoDup (_get_configured_roles env user)
  /\ (r ∈ _get_configured_roles env user
      <-> (r = "staff"
           /\ inhouse_is_staff env && is_inhouse_user env user = true)
          \/ exists name,
               List.find (fun '(name, _) => String.eqb name user)
                 (config_users env) = Some (name, r)).
Proof.
  unfold _get_configured_roles. cbv zeta.
  destruct (inhouse_is_staff env && is_inhouse_user env user);
    destruct (List.find _ (config_users env)) as [[name role]|].
  - destruct (String.eqb_spec role "staff") as [->|Hne].
    + split; [apply NoDup_singleton|]. rewrite list_elem_of_singleton.
      split; [auto|]. intros [[-> _]|(n & [= _ <-])]; done.
    + assert (NoDup ["staff"; role] /\ NoDup [role; "staff"]) as [H1 H2].
      { split; apply NoDup_cons; (split; [|apply NoDup_singleton]);
          rewrite list_elem_of_singleton; congruence. }
      destruct (set_order env "staff" role); (split; [done|]);
        rewrite !elem_of_cons, elem_of_nil; split.
      * intros [->|[->|[]]]; [by left|right; eauto].
      * intros [[-> _]|(n & [= _ <-])]; auto.
      * intros [->|[->|[]]]; [right; eauto|by left].
      * intros [[-> _]|(n & [= _ <-])]; auto.
  - split; [apply NoDup_singleton|]. rewrite list_elem_of_singleton.
    split; [auto|]. intros [[-> _]|(n & [=])]; done.
  - split; [apply NoDup_singleton|]. rewrite list_elem_of_singleton.
    split; [intros ->; right; eauto|].
    intros [[_ [=]]|(n & [= _ <-])]; done.
  - split; [apply NoDup_nil_2|]. rewrite elem_of_nil.
    split; [done|]. intros [[_ [=]]|(n & [=])].
Qed.



(** ** [db_set_in_control] *)

(** X22. [db_set_in_control(user, True)] on a stored user returns normally
    and leaves in control exactly the users that have the name of [user];
    no other field of any user changes. *)
Theorem db_set_in_control_grants (i : nat) (user : User) (w : World) :
  users w !! i = Some user ->
  exists w',
    db_set_in_control i true w = (w', Ok tt)
    /\ selected w' = selected w /\ events w' = events w
    /\ users w'
       = (fun u => set_in_control (String.eqb (username u) (username user)) u)
           <$> users w.
Proof.
  intros Hi. eexists. split; [by apply db_set_in_control_true_eq|]. done.
Qed.

(** The theorem at control granted to carol while alice has it. *)
Lemma db_set_in_control_grants_witness :
  users world_alice_carol !! 1 = Some carol
  /\ exists w',
       db_set_in_control 1 true world_alice_carol = (w', Ok tt)
       /\ in_control <$> users w' = [false; true].
Proof.
  split; [reflexivity|].
  destruct (db_set_in_control_grants 1 carol world_alice_carol eq_refl)
    as (w' & H & _ & _ & Hus).
  exists w'. split; [exact H|]. rewrite Hus. reflexivity.
Defined.

Lemma find_user_from_first (name : string) (us : list User) :
  forall k j, find_user_from name k us = Some j ->
  forall p v, p < j - k -> us !! p = Some v -> username v <> name.
Proof.
  induction us as [|u0 us IH]; intros k j; simpl; [done|].
  destruct (String.eqb_spec (username u0) name) as [Heq|Hne].
  - intros [= <-] p v Hp. lia.
  - intros Hf [|p] v Hp Hv; simpl in Hv; [congruence|].
    apply (IH (S k) j Hf p v); [lia|done].
Qed.

(** X23. [db_set_in_control(user, False)] on a stored user returns normally
    and clears [in_control] of one user only: the one [find_user] gives for
    the name of [user], which is the first user of that name, and [user]
    itself when names are unique. *)
Theorem db_set_in_control_revokes (i : nat) (user : User) (w : World) :
  users w !! i = Some user ->
  exists w' k uk,
    db_set_in_control i false w = (w', Ok tt)
    /\ find_user_from (username user) 0 (users w) = Some k
    /\ k <= i /\ users w !! k = Some uk /\ username uk = username user
    /\ (forall p v, p < k -> users w !! p = Some v ->
        username v <> username user)
    /\ users w' = <[k := set_in_control false uk]> (users w)
    /\ (NoDup (username <$> users w) -> k = i).
Proof.
  intros Hi.
  destruct (db_set_in_control_false_eq i user w Hi)
    as (k & uk & Hle & Hk & Hn & Hf & Heq).
  eexists _, k, uk. split; [exact Heq|]. split_and!; auto.
  - intros p v Hp. apply (find_user_from_first _ _ _ _ Hf). lia.
  - intros Hnd. rewrite (find_user_from_NoDup _ _ _ Hnd Hi) in Hf. congruence.
Qed.

(** The theorem at control taken from alice. *)
Lemma db_set_in_control_revokes_witness :
  users world_alice_carol !! 0 = Some alice
  /\ exists w',
       db_set_in_control 0 false world_alice_carol = (w', Ok tt)
       /\ in_control <$> users w' = [false; false].
Proof.
  split; [reflexivity|].
  destruct (db_set_in_control_revokes 0 alice world_alice_carol eq_refl)
    as (w' & k & uk & H & _).
  exists w'. split; [exact H|].
  replace w' with (fst (db_set_in_control 0 false world_alice_carol))
    by (by rewrite H).
  reflexivity.
Defined.

(** ** The names of the active users *)

Lemma active_expire (env : Env) (t : Z) (u : User) :
  active (expire env t u) = active u && negb (timed_out env t u).
Proof.
  unfold expire. destruct (timed_out env t u) eqn:Ht; simpl.
  - by rewrite andb_false_r.
  - by rewrite andb_true_r.
Qed.

Lemma isstaff_expire (env : Env) (t : Z) (u : User) :
  isstaff (expire env t u) = isstaff u.
Proof. unfold expire. by destruct (timed_out env t u). Qed.

(** X24. [active_logged_in_users] returns normally, leaves the datastore
    swept, and returns exactly the names of the users that were active and
    had not expired at that time; with [exclude_inhouse], of those among them
    that do not have the role "staff". *)
Theorem active_logged_in_users_sound (env : Env) (rq : Request)
    (exclude_inhouse : bool) (w : World) :
  exists w' names,
    active_logged_in_users env rq exclude_inhouse w = (w', Ok names)
    /\ users w' = sweep env (now rq) (users w)
    /\ forall x, x ∈ names <->
       exists u, u ∈ users w /\ username u = x /\ active u = true
         /\ timed_out env (now rq) u = false
         /\ (exclude_inhouse = true -> isstaff u = false).
Proof.
  eexists _, _. split; [apply active_logged_in_users_eq|]. split; [done|].
  intros x. unfold active_names, sweep. rewrite list_elem_of_fmap. split.
  - intros (v & -> & Hv). apply list_elem_of_In, filter_In in Hv as [Hv Hp].
    apply list_elem_of_In, list_elem_of_fmap in Hv as (u & -> & Hu).
    exists u. rewrite expire_username. split_and!; auto.
    + destruct exclude_inhouse; [apply andb_true_iff in Hp as [Hp _]|];
        rewrite active_expire in Hp; by apply andb_true_iff in Hp as [? _].
    + destruct exclude_inhouse; [apply andb_true_iff in Hp as [Hp _]|];
        rewrite active_expire in Hp; apply andb_true_iff in Hp as [_ Hp];
        by apply negb_true_iff in Hp.
    + intros ->. apply andb_true_iff in Hp as [_ Hp].
      rewrite isstaff_expire in Hp. by apply negb_true_iff in Hp.
  - intros (u & Hu & <- & Ha & Ht & Hs).
    exists (expire env (now rq) u). rewrite expire_username. split; [done|].
    apply list_elem_of_In, filter_In. split.
    + apply list_elem_of_In, list_elem_of_fmap. eauto.
    + rewrite active_expire, isstaff_expire, Ha, Ht. simpl.
      destruct exclude_inhouse; [|done]. by rewrite Hs.
Qed.

(** ** The proposal rule *)

(** X25. Outside the "user" login mode, a login id that is not in-house and
    not the name of an active session passes every rule when its credentials
    are accepted, its origin is allowed, and either no active session
    without the role "staff" exists or one of them has the login id as
    prefix: [_login] returns.  [login] then completes when every role
    configured for the login id is in the role table, and raises
    [FlushError] when one is not. *)
Theorem proposal_rule_passes (env : Env) (rq : Request)
    (login_id password : string) (w : World) :
  user_mode env = false -> is_inhouse_user env login_id = false ->
  let us := sweep env (now rq) (users w) in
  str_in login_id (active_names false us) = false ->
  active_names true us = []
  \/ str_in login_id (split_hyphen_0 <$> active_names true us) = true ->
  lims_valid_login env (lims_login env login_id password) = true ->
  local_host rq = true \/ ALLOW_REMOTE env = true ->
  (exists w1 r, _login env rq login_id password w = (w1, Ok r))
  /\ exists w', login env rq login_id password w
                = (w', if roles_storable env login_id then Ok tt
                       else Raise (FlushError msg_flush)).
Proof.
  intros Hmode Hin us Hself Hprop Hvalid Horigin.
  assert (exists w1 r, _login env rq login_id password w = (w1, Ok r))
    as (w1 & r & Hl).
  { rewrite _login_eq. cbv zeta. fold us.
    destruct (self_conflict_rule_cases rq login_id (active_names false us)
                (swept env (now rq) w) (swept_names_sub env (now rq) false w))
      as [[_ ->]|[(Ht & _)|(Ht & _)]]; [|congruence|congruence].
    rewrite admission_rules_eq. cbv zeta. rewrite Hin, Hmode, Hvalid.
    cbn [users swept]. fold us.
    assert (sweep env (now rq) us = us) as -> by (unfold us; apply sweep_idemp).
    assert (truthy (active_names true us)
            && negb (str_in login_id (split_hyphen_0 <$> active_names true us))
            = false) as Hrule.
    { destruct Hprop as [->| ->]; [done|by rewrite andb_false_r]. }
    cbn [negb andb]. rewrite Hrule. cbn [andb].
    assert (match cur_user rq (swept env (now rq) (swept env (now rq) w)) with
            | Some cu => truthy (active_names false us)
                         && negb (String.eqb (username cu) login_id) && false
            | None => false
            end = false) as ->.
    { destruct (cur_user rq _); [by rewrite andb_false_r|done]. }
    destruct Horigin as [->| ->]; rewrite ?andb_false_r; cbn [negb andb]; eauto. }
  split; [eauto|].
  destruct (login_ok_spec env rq login_id password w w1 r Hl) as (w' & H & _).
  eauto.
Qed.

(** The theorem at a second login for proposal 12345. *)
Lemma proposal_rule_passes_witness :
  user_mode env_proposal = false
  /\ is_inhouse_user env_proposal "12345" = false
  /\ str_in "12345"
       (split_hyphen_0 <$>
          active_names true (sweep env_proposal 1 (users world_12345))) = true
  /\ exists w',
       login env_proposal (anon_request true 1 "u2") "12345" "ok" world_12345
       = (w', Ok tt).
Proof.
  split; [reflexivity|]. split; [reflexivity|]. split; [reflexivity|].
  exact (proj2 (proposal_rule_passes env_proposal (anon_request true 1 "u2")
                  "12345" "ok" world_12345 eq_refl eq_refl eq_refl
                  (or_intror eq_refl) eq_refl (or_introl eq_refl))).
Defined.
